(** * Dr.Foscah medical portfolio backend: message lifecycle, auth gate,
      notification relay and site content store.

    A shallow embedding of [medical2_portfolio.py].  The SQLite tables are
    finite maps keyed by their primary (or unique) key, every SQL statement
    of [DatabaseManager] is a function on the [Database] record, and the
    Flask routes are functions from a request to a response and a new
    database.  The wall clock, the password hashing primitive, the JWT
    codec, the [json] module and the SMTP transport are inputs of the
    functions that use them.

    Conventions.  Request fields and method arguments have the types the
    signatures and dataclasses declare ([str] for every form field); a
    request body of string fields is a finite map, a JSON document is a
    [json] value.  Every SQL statement runs to completion: a locked or
    full database, and with it the [except Exception] branches that only
    report such failures, are outside the model.  The [email_templates]
    table is a record of its own ([Templates]): no operation touches it
    together with another table. *)

From stdpp Require Import base decidable option list strings pretty fin_maps gmap sorting.
From Stdlib Require Import ZArith Ascii.

Local Open Scope Z_scope.

(** ** Python strings *)

Module Py.

(** Truthiness of a [str]: [if s:] holds for every non-empty string. *)
Definition truthy (s : string) : bool := bool_decide (s ≠ "").

(** [needle in hay] on strings: substring test. *)
Fixpoint contains (needle hay : string) : bool :=
  String.prefix needle hay ||
  match hay with
  | EmptyString => false
  | String _ rest => contains needle rest
  end.

(** [sep.join(parts)]. *)
Fixpoint join (sep : string) (parts : list string) : string :=
  match parts with
  | [] => ""
  | [p] => p
  | p :: rest => p +:+ sep +:+ join sep rest
  end.

(** The two line feeds that start every appended note. *)
Definition blank_line : string := String "010"%char (String "010"%char "").

(** [str(n).zfill(width)] for a non-negative number. *)
Definition zfill (width : nat) (n : N) : string :=
  let digits := pretty n in
  String.concat "" (replicate (width - String.length digits) "0") +:+ digits.

End Py.

(** ** Wall clock *)

(** The fields of a [datetime] value as [datetime.now()] returns it. *)
Record datetime := {
  dt_year : N; dt_month : N; dt_day : N;
  dt_hour : N; dt_minute : N; dt_second : N; dt_microsecond : N
}.

(** [dt.strftime('%Y-%m-%d %H:%M')]. *)
Definition strftime_ymd_hm (dt : datetime) : string :=
  Py.zfill 4 (dt_year dt) +:+ "-" +:+ Py.zfill 2 (dt_month dt) +:+ "-" +:+
  Py.zfill 2 (dt_day dt) +:+ " " +:+
  Py.zfill 2 (dt_hour dt) +:+ ":" +:+ Py.zfill 2 (dt_minute dt).

(** [dt.isoformat()]: the microseconds are printed only when non-zero. *)
Definition isoformat (dt : datetime) : string :=
  Py.zfill 4 (dt_year dt) +:+ "-" +:+ Py.zfill 2 (dt_month dt) +:+ "-" +:+
  Py.zfill 2 (dt_day dt) +:+ "T" +:+
  Py.zfill 2 (dt_hour dt) +:+ ":" +:+ Py.zfill 2 (dt_minute dt) +:+ ":" +:+
  Py.zfill 2 (dt_second dt) +:+
  (if decide (dt_microsecond dt = 0%N) then ""
   else "." +:+ Py.zfill 6 (dt_microsecond dt)).

(** SQLite's [CURRENT_TIMESTAMP]: ["YYYY-MM-DD HH:MM:SS"]. *)
Definition current_timestamp (dt : datetime) : string :=
  Py.zfill 4 (dt_year dt) +:+ "-" +:+ Py.zfill 2 (dt_month dt) +:+ "-" +:+
  Py.zfill 2 (dt_day dt) +:+ " " +:+
  Py.zfill 2 (dt_hour dt) +:+ ":" +:+ Py.zfill 2 (dt_minute dt) +:+ ":" +:+
  Py.zfill 2 (dt_second dt).

(** ** Data model *)

(** One row of the [clients] table, without its primary key [id] (the key
    of the table map).  The two BOOLEAN columns hold SQLite integers;
    [reply_date] has no default and is NULL ([None]) until a reply. *)
Record ClientRow := {
  row_name : string;
  row_email : string;
  row_phone : string;
  row_address : string;
  row_project_type : string;
  row_message : string;
  row_status : string;
  row_read_by_admin : Z;
  row_admin_notes : string;
  row_replied_by_admin : Z;
  row_reply_date : option string;
  row_reply_content : string;
  row_reply_admin : string;
  row_created_at : string
}.

(** The [Client] dataclass. *)
Module Client.
Record t := {
  id : Z;
  name : string;
  email : string;
  phone : string;
  address : string;
  project_type : string;
  message : string;
  status : string;
  created_at : string;
  read_by_admin : bool;
  admin_notes : string;
  replied_by_admin : bool;
  reply_date : string;
  reply_content : string;
  reply_admin : string
}.
End Client.

(** One row of [website_content], keyed by its UNIQUE [section]. *)
Record ContentRow := {
  content_id : Z;
  content_text : string;
  content_updated_at : string
}.

(** The [WebsiteContent] dataclass. *)
Module WebsiteContent.
Record t := {
  section : string;
  content : string;
  updated_at : string
}.
End WebsiteContent.

(** The [AdminUser] dataclass; a row of [admin_users] has the same columns. *)
Module AdminUser.
Record t := {
  id : Z;
  username : string;
  password_hash : string;
  created_at : string
}.
End AdminUser.

(** The database file: the tables the operations below touch, each
    AUTOINCREMENT table with its [sqlite_sequence] entry. *)
Record Database := {
  clients : gmap Z ClientRow;
  clients_seq : Z;
  website_content : gmap string ContentRow;
  website_content_seq : Z;
  admin_users : list AdminUser.t;
  admin_users_seq : Z
}.

Definition empty_database : Database :=
  {| clients := ∅; clients_seq := 0;
     website_content := ∅; website_content_seq := 0;
     admin_users := []; admin_users_seq := 0 |}.

Definition with_clients (t : gmap Z ClientRow) (db : Database) : Database :=
  {| clients := t; clients_seq := clients_seq db;
     website_content := website_content db;
     website_content_seq := website_content_seq db;
     admin_users := admin_users db;
     admin_users_seq := admin_users_seq db |}.

(** ** SQL statements on the [clients] table *)

Module Sql.

(** [SELECT COUNT( * ) FROM clients WHERE ...]. *)
Definition count (where_ : Z → ClientRow → bool) (t : gmap Z ClientRow) : nat :=
  size (filter (λ kr, where_ kr.1 kr.2 = true) t).

(** The table after [UPDATE clients SET ... WHERE ...]. *)
Definition updated (where_ : Z → ClientRow → bool) (set : ClientRow → ClientRow)
    (t : gmap Z ClientRow) : gmap Z ClientRow :=
  map_imap (λ k r, Some (if where_ k r then set r else r)) t.

(** [UPDATE clients SET ... WHERE ...]: the new table and [rowcount]. *)
Definition update (where_ : Z → ClientRow → bool) (set : ClientRow → ClientRow)
    (t : gmap Z ClientRow) : gmap Z ClientRow * nat :=
  (updated where_ set t, count where_ t).

(** The table after [DELETE FROM clients WHERE ...]. *)
Definition deleted (where_ : Z → ClientRow → bool)
    (t : gmap Z ClientRow) : gmap Z ClientRow :=
  filter (λ kr, where_ kr.1 kr.2 = false) t.

(** [DELETE FROM clients WHERE ...]: the new table and [rowcount]. *)
Definition delete (where_ : Z → ClientRow → bool)
    (t : gmap Z ClientRow) : gmap Z ClientRow * nat :=
  (deleted where_ t, count where_ t).

(** [WHERE id = ?]. *)
Definition by_id (cid : Z) : Z → ClientRow → bool := λ k _, bool_decide (k = cid).

(** The largest rowid of a table (0 when it is empty). *)
Definition max_rowid {A} (t : gmap Z A) : Z :=
  map_fold (λ k _ acc, Z.max k acc) 0 t.

(** The rowid an AUTOINCREMENT insert assigns: one more than the largest
    rowid the table has ever held. *)
Definition next_rowid {A} (t : gmap Z A) (seq : Z) : Z :=
  Z.max (max_rowid t) seq + 1.

End Sql.

(** ** DatabaseManager: client operations *)

Definition valid_statuses : list string :=
  ["new"; "contacted"; "in_progress"; "completed"; "archived"].

(** [_row_to_client]: [x or ''] on the nullable columns, [bool(x)] on the
    two flags. *)
Definition _row_to_client (cid : Z) (row : ClientRow) : Client.t :=
  {| Client.id := cid;
     Client.name := row_name row;
     Client.email := row_email row;
     Client.phone := row_phone row;
     Client.address := row_address row;
     Client.project_type := row_project_type row;
     Client.message := row_message row;
     Client.status := row_status row;
     Client.created_at := row_created_at row;
     Client.read_by_admin := bool_decide (row_read_by_admin row ≠ 0);
     Client.admin_notes := row_admin_notes row;
     Client.replied_by_admin := bool_decide (row_replied_by_admin row ≠ 0);
     Client.reply_date := default "" (row_reply_date row);
     Client.reply_content := row_reply_content row;
     Client.reply_admin := row_reply_admin row |}.

(** The row [INSERT INTO clients (name, email, phone, address, project_type,
    message)] stores: the six values and the column defaults. *)
Definition inserted_row (name email phone address project_type message : string)
    (now : datetime) : ClientRow :=
  {| row_name := name; row_email := email; row_phone := phone;
     row_address := address; row_project_type := project_type;
     row_message := message;
     row_status := "new";
     row_read_by_admin := 0;
     row_admin_notes := "";
     row_replied_by_admin := 0;
     row_reply_date := None;
     row_reply_content := "";
     row_reply_admin := "";
     row_created_at := current_timestamp now |}.

(** [str(KeyError(k))]. *)
Definition key_error (k : string) : string := "'" +:+ k +:+ "'".

Definition create_client (client_data : gmap string string) (now : datetime)
    (db : Database) : (bool * string * option Client.t) * Database :=
  match client_data !! "name" with
  | None => ((false, key_error "name", None), db)
  | Some name =>
    match client_data !! "email" with
    | None => ((false, key_error "email", None), db)
    | Some email =>
      match client_data !! "message" with
      | None => ((false, key_error "message", None), db)
      | Some message =>
        let client_id := Sql.next_rowid (clients db) (clients_seq db) in
        let row := inserted_row name email
                     (default "" (client_data !! "phone"))
                     (default "" (client_data !! "address"))
                     (default "" (client_data !! "project_type"))
                     message now in
        let db' := {| clients := <[client_id := row]> (clients db);
                      clients_seq := client_id;
                      website_content := website_content db;
                      website_content_seq := website_content_seq db;
                      admin_users := admin_users db;
                      admin_users_seq := admin_users_seq db |} in
        match clients db' !! client_id with
        | Some row => ((true, "Client created successfully",
                        Some (_row_to_client client_id row)), db')
        | None => ((false, "Failed to create client", None), db')
        end
      end
    end
  end.

Definition set_status_read (status : string) (r : ClientRow) : ClientRow :=
  {| row_name := row_name r; row_email := row_email r; row_phone := row_phone r;
     row_address := row_address r; row_project_type := row_project_type r;
     row_message := row_message r;
     row_status := status;
     row_read_by_admin := 1;
     row_admin_notes := row_admin_notes r;
     row_replied_by_admin := row_replied_by_admin r;
     row_reply_date := row_reply_date r;
     row_reply_content := row_reply_content r;
     row_reply_admin := row_reply_admin r;
     row_created_at := row_created_at r |}.

Definition set_admin_notes (notes : string) (r : ClientRow) : ClientRow :=
  {| row_name := row_name r; row_email := row_email r; row_phone := row_phone r;
     row_address := row_address r; row_project_type := row_project_type r;
     row_message := row_message r;
     row_status := row_status r;
     row_read_by_admin := row_read_by_admin r;
     row_admin_notes := notes;
     row_replied_by_admin := row_replied_by_admin r;
     row_reply_date := row_reply_date r;
     row_reply_content := row_reply_content r;
     row_reply_admin := row_reply_admin r;
     row_created_at := row_created_at r |}.

(** [SET read_by_admin = 1, admin_notes = CASE WHEN admin_notes = '' THEN ?
    ELSE admin_notes || ? END]. *)
Definition set_read_notes (first rest : string) (r : ClientRow) : ClientRow :=
  {| row_name := row_name r; row_email := row_email r; row_phone := row_phone r;
     row_address := row_address r; row_project_type := row_project_type r;
     row_message := row_message r;
     row_status := row_status r;
     row_read_by_admin := 1;
     row_admin_notes :=
       if decide (row_admin_notes r = "") then first
       else row_admin_notes r +:+ rest;
     row_replied_by_admin := row_replied_by_admin r;
     row_reply_date := row_reply_date r;
     row_reply_content := row_reply_content r;
     row_reply_admin := row_reply_admin r;
     row_created_at := row_created_at r |}.

(** [SET replied_by_admin = 1, reply_date = ?, reply_content = ?,
    reply_admin = ?, read_by_admin = 1]. *)
Definition set_replied (date content admin : string) (r : ClientRow) : ClientRow :=
  {| row_name := row_name r; row_email := row_email r; row_phone := row_phone r;
     row_address := row_address r; row_project_type := row_project_type r;
     row_message := row_message r;
     row_status := row_status r;
     row_read_by_admin := 1;
     row_admin_notes := row_admin_notes r;
     row_replied_by_admin := 1;
     row_reply_date := Some date;
     row_reply_content := content;
     row_reply_admin := admin;
     row_created_at := row_created_at r |}.

Definition invalid_status_message : string :=
  "Invalid status. Must be one of: " +:+ Py.join ", " valid_statuses.

(** The note the status change appends to [admin_notes]. *)
Definition status_note (now : datetime) (status admin_name : string) : string :=
  Py.blank_line +:+ "[" +:+ strftime_ymd_hm now +:+
  "] Status changed to '" +:+ status +:+ "' by " +:+ admin_name.

Definition update_client_status (client_id : Z) (status admin_name : string)
    (now : datetime) (db : Database) : (bool * string) * Database :=
  if bool_decide (status ∈ valid_statuses) then
    let '(t1, rowcount) :=
      Sql.update (Sql.by_id client_id) (set_status_read status) (clients db) in
    if decide (rowcount = 0%nat) then ((false, "Client not found"), db)
    else
      let t2 :=
        if Py.truthy admin_name then
          (Sql.update (Sql.by_id client_id)
             (λ r, set_admin_notes
                     (row_admin_notes r +:+ status_note now status admin_name) r)
             t1).1
        else t1 in
      ((true, "Status updated successfully"), with_clients t2 db)
  else ((false, invalid_status_message), db).

Definition mark_client_as_read (client_id : Z) (admin_notes admin_name : string)
    (db : Database) : (bool * string) * Database :=
  let '(t1, rowcount) :=
    Sql.update (Sql.by_id client_id)
      (set_read_notes admin_notes
         (if Py.truthy admin_notes
          then Py.blank_line +:+ admin_notes else ""))
      (clients db) in
  if decide (rowcount = 0%nat) then ((false, "Client not found"), db)
  else ((true, "Client marked as read"), with_clients t1 db).

Definition mark_client_as_replied (client_id : Z) (reply_content admin_name : string)
    (now : datetime) (db : Database) : (bool * string) * Database :=
  let '(t1, rowcount) :=
    Sql.update (Sql.by_id client_id)
      (set_replied (isoformat now) reply_content admin_name) (clients db) in
  if decide (rowcount = 0%nat) then ((false, "Client not found"), db)
  else ((true, "Client marked as replied"), with_clients t1 db).

Definition update_reply (client_id : Z) (reply_content admin_name : string)
    (now : datetime) (db : Database) : (bool * string) * Database :=
  let '(t1, rowcount) :=
    Sql.update (Sql.by_id client_id)
      (set_replied (isoformat now) reply_content admin_name) (clients db) in
  if decide (rowcount = 0%nat) then ((false, "Client not found"), db)
  else ((true, "Reply updated successfully"), with_clients t1 db).

Definition mark_all_as_read (admin_name : string) (now : datetime)
    (db : Database) : (bool * string) * Database :=
  let '(t1, updated_count) :=
    Sql.update (λ _ r, bool_decide (row_read_by_admin r = 0))
      (set_read_notes
         (if Py.truthy admin_name
          then "[" +:+ strftime_ymd_hm now +:+ "] Marked as read by " +:+ admin_name
          else "Marked as read")
         (if Py.truthy admin_name
          then Py.blank_line +:+ "[" +:+ strftime_ymd_hm now +:+
               "] Marked as read by " +:+ admin_name
          else Py.blank_line +:+ "Marked as read"))
      (clients db) in
  ((true, "Marked " +:+ pretty updated_count +:+ " messages as read"),
   with_clients t1 db).

Definition delete_client (client_id : Z) (db : Database)
    : (bool * string) * Database :=
  let '(t1, rowcount) := Sql.delete (Sql.by_id client_id) (clients db) in
  if decide (rowcount = 0%nat) then ((false, "Client not found"), db)
  else ((true, "Client deleted successfully"), with_clients t1 db).

Definition get_client (client_id : Z) (db : Database) : option Client.t :=
  _row_to_client client_id <$> clients db !! client_id.

(** [SELECT status, COUNT( * ) FROM clients GROUP BY status], as the dict
    the comprehension builds from it. *)
Definition status_counts (t : gmap Z ClientRow) : gmap string nat :=
  map_fold (λ _ r acc, <[row_status r := S (default 0%nat (acc !! row_status r))]> acc)
    ∅ t.

(** The five counters [get_message_counts] computes first. *)
Definition counters (t : gmap Z ClientRow) : gmap string nat :=
  <["read_not_replied" :=
      Sql.count (λ _ r, bool_decide (row_read_by_admin r = 1) &&
                        bool_decide (row_replied_by_admin r = 0)) t]>
  (<["replied" := Sql.count (λ _ r, bool_decide (row_replied_by_admin r = 1)) t]>
  (<["read" := Sql.count (λ _ r, bool_decide (row_read_by_admin r = 1)) t]>
  (<["unread" := Sql.count (λ _ r, bool_decide (row_read_by_admin r = 0)) t]>
  (<["total" := Sql.count (λ _ _, true) t]> ∅)))).

(** [get_message_counts]: the counters, then [counts.update] with the
    per-status counts (a status key overwrites a counter of the same
    name). *)
Definition get_message_counts (db : Database) : gmap string nat :=
  status_counts (clients db) ∪ counters (clients db).

(** ** DatabaseManager: site content and operator accounts *)

Definition with_website_content (t : gmap string ContentRow) (seq : Z)
    (db : Database) : Database :=
  {| clients := clients db; clients_seq := clients_seq db;
     website_content := t; website_content_seq := seq;
     admin_users := admin_users db;
     admin_users_seq := admin_users_seq db |}.

(** [INSERT OR REPLACE INTO website_content (section, content)]: a row of
    the same section is dropped, the new row takes a fresh id. *)
Definition insert_or_replace_content (now : datetime) (db : Database)
    (entry : string * string) : Database :=
  let rowid :=
    Z.max (map_fold (λ _ r acc, Z.max (content_id r) acc) 0 (website_content db))
          (website_content_seq db) + 1 in
  with_website_content
    (<[entry.1 := {| content_id := rowid; content_text := entry.2;
                     content_updated_at := current_timestamp now |}]>
       (website_content db))
    rowid db.

(** [save_website_content]: one upsert per item of the dict, in order. *)
Definition save_website_content (content_data : list (string * string))
    (now : datetime) (db : Database) : (bool * string) * Database :=
  ((true, "Content saved successfully"),
   foldl (insert_or_replace_content now) db content_data).

Definition get_website_content (db : Database) : gmap string WebsiteContent.t :=
  map_imap (λ sec r, Some {| WebsiteContent.section := sec;
                             WebsiteContent.content := content_text r;
                             WebsiteContent.updated_at := content_updated_at r |})
    (website_content db).

(** The seeding steps of [init_database]: the default operator when no row
    is named ["admin"], and every default section that has no row yet.
    [admin_hash] is [generate_password_hash("admin9048")] (salted, so an
    input here); [default_content] is the module's seed dict. *)
Definition seed_admin (admin_hash : string) (now : datetime) (db : Database)
    : Database :=
  if decide (length (filter (λ u, AdminUser.username u = "admin") (admin_users db))
             = 0%nat) then
    let rowid :=
      Z.max (foldr (λ u acc, Z.max (AdminUser.id u) acc) 0 (admin_users db))
            (admin_users_seq db) + 1 in
    {| clients := clients db; clients_seq := clients_seq db;
       website_content := website_content db;
       website_content_seq := website_content_seq db;
       admin_users :=
         admin_users db ++
         [{| AdminUser.id := rowid; AdminUser.username := "admin";
             AdminUser.password_hash := admin_hash;
             AdminUser.created_at := current_timestamp now |}];
       admin_users_seq := rowid |}
  else db.

Definition seed_content (now : datetime) (db : Database)
    (entry : string * string) : Database :=
  match website_content db !! entry.1 with
  | Some _ => db
  | None => insert_or_replace_content now db entry
  end.

Definition init_database (admin_hash : string)
    (default_content : list (string * string)) (now : datetime)
    (db : Database) : Database :=
  foldl (seed_content now) (seed_admin admin_hash now db) default_content.

Section Werkzeug.

(** [werkzeug.security.check_password_hash(pwhash, password)]. *)
Variable check_password_hash : string → string → bool.

Definition authenticate_admin (username password : string) (db : Database)
    : bool * string * option AdminUser.t :=
  match filter (λ u, AdminUser.username u = username) (admin_users db) with
  | [] => (false, "Invalid credentials", None)
  | row :: _ =>
    if negb (check_password_hash (AdminUser.password_hash row) password)
    then (false, "Invalid credentials", None)
    else (true, "Authentication successful", Some row)
  end.

End Werkzeug.

(** ** EmailManager *)

Record EmailManager := {
  smtp_server : string;
  smtp_port : Z;
  smtp_username : option string;
  smtp_password : option string
}.

(** [self.enabled = bool(username and password)]. *)
Definition enabled (em : EmailManager) : bool :=
  match smtp_username em, smtp_password em with
  | Some u, Some p => Py.truthy u && Py.truthy p
  | _, _ => false
  end.

Section Smtp.

(** The SMTP session of [send_email] (connect, STARTTLS, login, send):
    [None] when the message went out, [Some e] when it raised [e]. *)
Variable smtp_session : EmailManager → string → string → string → option string.

Definition send_email (em : EmailManager) (to_email subject body : string)
    : bool * string :=
  if negb (enabled em) then (false, "Email sending is not configured")
  else match smtp_session em to_email subject body with
       | None => (true, "Email sent successfully")
       | Some e => (false, e)
       end.

End Smtp.

(** ** AuthManager *)

(** [AdminUser.to_dict()], the identity a credential carries. *)
Record AdminDict := {
  dict_id : Z;
  dict_username : string;
  dict_created_at : string
}.


(** Outcome of [jwt.decode]. *)
Inductive JwtDecode :=
| Decoded (admin : AdminDict)
| ExpiredSignatureError
| InvalidTokenError.

(** [s.split(' ')[1]] for a string that starts with ["Bearer "]: what
    follows the first space, up to the next one. *)
Fixpoint until_space (s : string) : string :=
  match s with
  | EmptyString => ""
  | String c rest => if Ascii.eqb c " " then "" else String c (until_space rest)
  end.

Definition get_auth_header (authorization : option string) : option string :=
  match authorization with
  | Some auth_header =>
    if Py.truthy auth_header && String.prefix "Bearer " auth_header
    then Some (until_space (String.substring 7 (String.length auth_header - 7)
                              auth_header))
    else None
  | None => None
  end.

(** ** JSON values and the [json] module *)

(** A decoded JSON document, as [request.get_json()] and [json.loads]
    return it: [None], [bool], [int], [str], [list], [dict] (in insertion
    order).  Floating point numbers are left out of the model. *)
#[local] Unset Elimination Schemes.
Inductive json :=
| JNull
| JBool (b : bool)
| JInt (n : Z)
| JStr (s : string)
| JArr (items : list json)
| JObj (fields : list (string * json)).
#[local] Set Elimination Schemes.

(** [isinstance(v, (dict, list))]. *)
Definition is_dict_or_list (v : json) : bool :=
  match v with
  | JArr _ | JObj _ => true
  | _ => false
  end.

(** [str(v)] on a value that is neither a dict nor a list. *)
Definition py_str (v : json) : string :=
  match v with
  | JNull => "None"
  | JBool true => "True"
  | JBool false => "False"
  | JInt n => pretty n
  | JStr s => s
  | JArr _ | JObj _ => ""
  end.

(** [d[k] = v] on a dict kept in insertion order. *)
Fixpoint dict_set {A} (k : string) (v : A) (d : list (string * A))
    : list (string * A) :=
  match d with
  | [] => [(k, v)]
  | (k', v') :: rest =>
    if decide (k' = k) then (k, v) :: rest else (k', v') :: dict_set k v rest
  end.

(** A reference [json.loads] / [json.dumps] for the fragment above, used to
    run the content routes on concrete documents.  It gives up ([None]) on
    what the fragment does not cover: number literals with a fraction or an
    exponent, [NaN] and [Infinity] (all floating point) and [\u] escapes.
    The theorems on the content routes hold for any [json] codec. *)
Module JsonRef.

(** The double quote character. *)
Definition dquote : ascii := "034"%char.

Definition is_ws (c : ascii) : bool :=
  Ascii.eqb c " " || Ascii.eqb c "009" || Ascii.eqb c "010" || Ascii.eqb c "013".

Fixpoint skip_ws (s : string) : string :=
  match s with
  | String c rest => if is_ws c then skip_ws rest else s
  | EmptyString => ""
  end.

Definition digit_of (c : ascii) : option Z :=
  let n := Z.of_N (N_of_ascii c) in
  if bool_decide (48 ≤ n ≤ 57) then Some (n - 48) else None.

(** The digits at the head of [s]: their value and the remaining input. *)
Fixpoint digits (acc : Z) (s : string) : Z * string :=
  match s with
  | String c rest =>
    match digit_of c with
    | Some d => digits (10 * acc + d) rest
    | None => (acc, s)
    end
  | EmptyString => (acc, "")
  end.

Definition starts_float_tail (s : string) : bool :=
  match s with
  | String c _ => Ascii.eqb c "." || Ascii.eqb c "e" || Ascii.eqb c "E"
  | EmptyString => false
  end.

(** An integer literal without its sign: [0] or a digit string that
    does not start with [0]. *)
Definition natural (s : string) : option (Z * string) :=
  match s with
  | String c rest =>
    match digit_of c with
    | Some 0 => if starts_float_tail rest then None else Some (0, rest)
    | Some d =>
      let '(n, rest') := digits d rest in
      if starts_float_tail rest' then None else Some (n, rest')
    | None => None
    end
  | EmptyString => None
  end.

(** The body of a string literal, after the opening quote. *)
Fixpoint string_body (s : string) : option (string * string) :=
  match s with
  | EmptyString => None
  | String c rest =>
    if Ascii.eqb c dquote then Some ("", rest)
    else if Ascii.eqb c "\" then
      match rest with
      | String e rest' =>
        let unescaped :=
          if Ascii.eqb e dquote then Some dquote
          else if Ascii.eqb e "\" then Some "\"%char
          else if Ascii.eqb e "/" then Some "/"%char
          else if Ascii.eqb e "b" then Some "008"%char
          else if Ascii.eqb e "f" then Some "012"%char
          else if Ascii.eqb e "n" then Some "010"%char
          else if Ascii.eqb e "r" then Some "013"%char
          else if Ascii.eqb e "t" then Some "009"%char
          else None in
        match unescaped, string_body rest' with
        | Some u, Some (body, tail) => Some (String u body, tail)
        | _, _ => None
        end
      | EmptyString => None
      end
    else if bool_decide (N_of_ascii c < 32)%N then None
    else match string_body rest with
         | Some (body, tail) => Some (String c body, tail)
         | None => None
         end
  end.

Definition expect (c : ascii) (s : string) : option string :=
  match skip_ws s with
  | String c' rest => if Ascii.eqb c c' then Some rest else None
  | EmptyString => None
  end.

Section Containers.
(** The parser of one value, for the elements of a container. *)
Variable value : string → option (json * string).

(** After an element of a list: [,] and another element, or []]. *)
Fixpoint more_items (fuel : nat) (acc : list json) (s : string)
    : option (list json * string) :=
  match fuel with
  | O => None
  | S fuel' =>
    match skip_ws s with
    | String c rest =>
      if Ascii.eqb c "]" then Some (reverse acc, rest)
      else if Ascii.eqb c "," then
        match value rest with
        | Some (v, rest') => more_items fuel' (v :: acc) rest'
        | None => None
        end
      else None
    | EmptyString => None
    end
  end.

(** One ["key": value] member of a dict. *)
Definition member (s : string) : option (string * json * string) :=
  match expect dquote s with
  | Some rest =>
    match string_body rest with
    | Some (k, rest') =>
      match expect ":" rest' with
      | Some rest'' =>
        match value rest'' with
        | Some (v, tail) => Some (k, v, tail)
        | None => None
        end
      | None => None
      end
    | None => None
    end
  | None => None
  end.

(** After a member of a dict: [,] and another member, or [}]. *)
Fixpoint more_members (fuel : nat) (acc : list (string * json)) (s : string)
    : option (list (string * json) * string) :=
  match fuel with
  | O => None
  | S fuel' =>
    match skip_ws s with
    | String c rest =>
      if Ascii.eqb c "}" then Some (acc, rest)
      else if Ascii.eqb c "," then
        match member rest with
        | Some (k, v, rest') => more_members fuel' (dict_set k v acc) rest'
        | None => None
        end
      else None
    | EmptyString => None
    end
  end.
End Containers.

Definition literal (word : string) (v : json) (s : string)
    : option (json * string) :=
  if String.prefix word s
  then Some (v, String.substring (String.length word)
                  (String.length s - String.length word) s)
  else None.

Fixpoint value (fuel : nat) (s : string) : option (json * string) :=
  match fuel with
  | O => None
  | S fuel' =>
    let s := skip_ws s in
    match s with
    | EmptyString => None
    | String c rest =>
      if Ascii.eqb c "n" then literal "null" JNull s
      else if Ascii.eqb c "t" then literal "true" (JBool true) s
      else if Ascii.eqb c "f" then literal "false" (JBool false) s
      else if Ascii.eqb c dquote then
        match string_body rest with
        | Some (body, tail) => Some (JStr body, tail)
        | None => None
        end
      else if Ascii.eqb c "-" then
        match natural rest with
        | Some (n, tail) => Some (JInt (- n), tail)
        | None => None
        end
      else if Ascii.eqb c "[" then
        match skip_ws rest with
        | String "]" tail => Some (JArr [], tail)
        | _ =>
          match value fuel' rest with
          | Some (v, rest') =>
            match more_items (value fuel') (String.length rest') [v] rest' with
            | Some (items, tail) => Some (JArr items, tail)
            | None => None
            end
          | None => None
          end
        end
      else if Ascii.eqb c "{" then
        match skip_ws rest with
        | String "}" tail => Some (JObj [], tail)
        | _ =>
          match member (value fuel') rest with
          | Some (k, v, rest') =>
            match more_members (value fuel') (String.length rest') [(k, v)] rest' with
            | Some (fields, tail) => Some (JObj fields, tail)
            | None => None
            end
          | None => None
          end
        end
      else
        match natural s with
        | Some (n, tail) => Some (JInt n, tail)
        | None => None
        end
    end
  end.

(** [json.loads(s)]: one value, surrounded by nothing but whitespace;
    [None] where it raises. *)
Definition loads (s : string) : option json :=
  match value (S (String.length s)) s with
  | Some (v, rest) => if decide (skip_ws rest = "") then Some v else None
  | None => None
  end.

Definition hex_digit (n : N) : ascii :=
  ascii_of_N (if bool_decide (n < 10)%N then 48 + n else 87 + n).

Definition escape_char (c : ascii) : string :=
  if Ascii.eqb c dquote then String "\" (String dquote "")
  else if Ascii.eqb c "\" then "\\"
  else if Ascii.eqb c "010" then "\n"
  else if Ascii.eqb c "013" then "\r"
  else if Ascii.eqb c "009" then "\t"
  else if Ascii.eqb c "008" then "\b"
  else if Ascii.eqb c "012" then "\f"
  else if bool_decide (N_of_ascii c < 32)%N then
    "\u00" +:+ String (hex_digit (N_of_ascii c / 16))
                 (String (hex_digit (N_of_ascii c mod 16)) "")
  else String c "".

Fixpoint escape (s : string) : string :=
  match s with
  | EmptyString => ""
  | String c rest => escape_char c +:+ escape rest
  end.

Definition quote (s : string) : string :=
  String dquote (escape s +:+ String dquote "").

(** [json.dumps(v)] with its default separators. *)
Fixpoint dumps (v : json) : string :=
  match v with
  | JNull => "null"
  | JBool true => "true"
  | JBool false => "false"
  | JInt n => pretty n
  | JStr s => quote s
  | JArr items => "[" +:+ Py.join ", " (map dumps items) +:+ "]"
  | JObj fields =>
    "{" +:+ Py.join ", " (map (λ kv, quote kv.1 +:+ ": " +:+ dumps kv.2) fields)
        +:+ "}"
  end.

End JsonRef.

(** ** Flask routes *)

(** What a route hands to [jsonify]. *)
Inductive Body :=
| Error (error : string)
| Message (message : string)
| Created (message : string) (client : Client.t)
| LoggedIn (access_token : string) (admin : AdminDict) (message : string)
| Replied (message : string) (email_sent : bool)
| Content (sections : gmap string json).

Record Response := {
  body : Body;
  status_code : Z
}.

Definition jsonify (b : Body) : Response := {| body := b; status_code := 200 |}.

(** The managers a [MedicalPortfolioApp] holds besides its database. *)
Record App := {
  secret_key : string;
  email : EmailManager
}.

Section Routes.

Variable check_password_hash : string → string → bool.
(** [jwt.encode] of the payload [create_token] builds at a given time, and
    [jwt.decode] of a token at a given time, both under a key. *)
Variable jwt_encode : AdminDict → datetime → string → string.
Variable jwt_decode : string → string → datetime → JwtDecode.
Variable json_loads : string → option json.
Variable json_dumps : json → string.
Variable smtp_session : EmailManager → string → string → string → option string.

Variable app : App.


Definition verify_token (token : string) (now : datetime) : AdminDict + string :=
  match jwt_decode token (secret_key app) now with
  | Decoded admin => inl admin
  | ExpiredSignatureError => inr "Token has expired"
  | InvalidTokenError => inr "Invalid token"
  end.

(** The guard every operator route starts with: the bearer token of the
    request, verified; or the 401 response. *)
Definition require_admin (authorization : option string) (now : datetime)
    : Response + AdminDict :=
  match get_auth_header authorization with
  | None => inl {| body := Error "Authentication required"; status_code := 401 |}
  | Some token =>
    if negb (Py.truthy token)
    then inl {| body := Error "Authentication required"; status_code := 401 |}
    else match verify_token token now with
         | inr admin_data => inl {| body := Error admin_data; status_code := 401 |}
         | inl admin_data => inr admin_data
         end
  end.

(** [not data.get(field)]. *)
Definition missing (data : gmap string string) (field : string) : bool :=
  negb (Py.truthy (default "" (data !! field))).


Definition route_create_client (data : gmap string string) (now : datetime)
    (db : Database) : Response * Database :=
  match filter (missing data) ["name"; "email"; "message"] with
  | field :: _ =>
    ({| body := Error (field +:+ " is required"); status_code := 400 |}, db)
  | [] =>
    let email := default "" (data !! "email") in
    if negb (Py.contains "@" email) || negb (Py.contains "." email)
    then ({| body := Error "Please enter a valid email address";
             status_code := 400 |}, db)
    else
      match create_client data now db with
      | ((true, _, Some client), db') =>
        ({| body := Created
                      "Thank you for your message! We will contact you soon."
                      client;
            status_code := 201 |}, db')
      | ((_, message, _), db') =>
        ({| body := Error message; status_code := 400 |}, db')
      end
  end.

Definition route_mark_client_as_replied (authorization : option string)
    (data : gmap string string) (client_id : Z) (now : datetime)
    (db : Database) : Response * Database :=
  match require_admin authorization now with
  | inl denied => (denied, db)
  | inr admin_data =>
    let reply_content := default "" (data !! "reply_content") in
    if negb (Py.truthy reply_content)
    then ({| body := Error "Reply content is required"; status_code := 400 |}, db)
    else
      match mark_client_as_replied client_id reply_content
              (dict_username admin_data) now db with
      | ((false, message), db') =>
        ({| body := Error message; status_code := 404 |}, db')
      | ((true, message), db') => (jsonify (Message message), db')
      end
  end.

Definition route_send_client_reply (authorization : option string)
    (data : gmap string string) (client_id : Z) (now : datetime)
    (db : Database) : Response * Database :=
  match require_admin authorization now with
  | inl denied => (denied, db)
  | inr admin_data =>
    let reply_content := default "" (data !! "reply_content") in
    if negb (Py.truthy reply_content)
    then ({| body := Error "Reply content is required"; status_code := 400 |}, db)
    else
      match get_client client_id db with
      | None => ({| body := Error "Client not found"; status_code := 404 |}, db)
      | Some client =>
        let record_reply :=
          match mark_client_as_replied client_id reply_content
                  (dict_username admin_data) now db with
          | ((false, message), db') =>
            ({| body := Error message; status_code := 500 |}, db')
          | ((true, _), db') =>
            (jsonify (Replied
                        (if enabled (email app) then "Reply sent successfully"
                         else "Reply saved (email not configured)")
                        (enabled (email app))), db')
          end in
        if enabled (email app) then
          match send_email smtp_session (email app) (Client.email client)
                  "Re: Your inquiry to Dr. Foscah Faith" reply_content with
          | (false, message) =>
            ({| body := Error ("Failed to send email: " +:+ message);
                status_code := 500 |}, db)
          | (true, _) => record_reply
          end
        else record_reply
      end
  end.

Definition route_get_content (db : Database) : Response :=
  jsonify (Content
    ((λ content_obj,
        match json_loads (WebsiteContent.content content_obj) with
        | Some v => v
        | None => JStr (WebsiteContent.content content_obj)
        end) <$> get_website_content db)).

Definition route_save_content (authorization : option string) (data : json)
    (now : datetime) (db : Database) : Response * Database :=
  match require_admin authorization now with
  | inl denied => (denied, db)
  | inr admin_data =>
    match data with
    | JObj items =>
      let content_to_save :=
        foldl (λ acc item,
                 dict_set item.1
                   (if is_dict_or_list item.2 then json_dumps item.2
                    else py_str item.2) acc) [] items in
      match save_website_content content_to_save now db with
      | ((false, message), db') =>
        ({| body := Error message; status_code := 400 |}, db')
      | ((true, message), db') => (jsonify (Message message), db')
      end
    | _ => ({| body := Error "Content must be a JSON object";
               status_code := 400 |}, db)
    end
  end.

End Routes.

(** ** The operator's actions as a transition system *)

(** One call that writes to the [clients] or [website_content] table: a
    method of [DatabaseManager], or the [init_database] of a restart on the
    existing file.  (The remaining writers, for templates and passwords,
    touch other tables only.) *)
Inductive Op :=
| Restart (admin_hash : string) (default_content : list (string * string))
    (now : datetime)
| Create (client_data : gmap string string) (now : datetime)
| SetStatus (client_id : Z) (status admin_name : string) (now : datetime)
| MarkRead (client_id : Z) (admin_notes admin_name : string)
| MarkAllRead (admin_name : string) (now : datetime)
| Reply (client_id : Z) (reply_content admin_name : string) (now : datetime)
| UpdateReply (client_id : Z) (reply_content admin_name : string) (now : datetime)
| Delete (client_id : Z)
| SaveContent (content_data : list (string * string)) (now : datetime).

(** The database after the call. *)
Definition run (op : Op) (db : Database) : Database :=
  match op with
  | Restart admin_hash default_content now =>
    init_database admin_hash default_content now db
  | Create client_data now => (create_client client_data now db).2
  | SetStatus client_id status admin_name now =>
    (update_client_status client_id status admin_name now db).2
  | MarkRead client_id admin_notes admin_name =>
    (mark_client_as_read client_id admin_notes admin_name db).2
  | MarkAllRead admin_name now => (mark_all_as_read admin_name now db).2
  | Reply client_id reply_content admin_name now =>
    (mark_client_as_replied client_id reply_content admin_name now db).2
  | UpdateReply client_id reply_content admin_name now =>
    (update_reply client_id reply_content admin_name now db).2
  | Delete client_id => (delete_client client_id db).2
  | SaveContent content_data now => (save_website_content content_data now db).2
  end.

(** The four actions of the message lifecycle that keep the row. *)
Definition lifecycle (op : Op) : bool :=
  match op with
  | SetStatus _ _ _ _ | MarkRead _ _ _ | MarkAllRead _ _ | Reply _ _ _ _ => true
  | _ => false
  end.

(** The databases the application can be in: a new file initialised by
    [init_database], then any sequence of calls. *)
Inductive reachable : Database → Prop :=
| reachable_init admin_hash default_content now :
    reachable (init_database admin_hash default_content now empty_database)
| reachable_step op db :
    reachable db → reachable (run op db).

(** The two flags as [_row_to_client] reads them. *)
Definition is_read (r : ClientRow) : bool := bool_decide (row_read_by_admin r ≠ 0).
Definition is_replied (r : ClientRow) : bool := bool_decide (row_replied_by_admin r ≠ 0).

(** The row a successful [update_client_status] leaves behind: the first
    UPDATE, then the note of the second one when [admin_name] is given. *)
Definition status_changed (now : datetime) (status admin_name : string)
    (row : ClientRow) : ClientRow :=
  let row1 := set_status_read status row in
  if Py.truthy admin_name
  then set_admin_notes
         (row_admin_notes row1 +:+ status_note now status admin_name) row1
  else row1.

(** The row [mark_client_as_read] leaves behind. *)
Definition marked_read (admin_notes : string) (row : ClientRow) : ClientRow :=
  set_read_notes admin_notes
    (if Py.truthy admin_notes then Py.blank_line +:+ admin_notes else "") row.

(** How one call may change a stored row: the status stays or becomes one
    of the five, the read flag stays or becomes 1. *)
Definition row_step (row row' : ClientRow) : Prop :=
  (row_status row' = row_status row ∨ row_status row' ∈ valid_statuses) ∧
  (row_read_by_admin row' = row_read_by_admin row ∨ row_read_by_admin row' = 1).

(** ** Sample data *)

(** A clock reading, the submission of the specification's scenarios, and
    the database that holds it as client 1. *)
Definition sample_now : datetime :=
  {| dt_year := 2024; dt_month := 3; dt_day := 7;
     dt_hour := 9; dt_minute := 5; dt_second := 1; dt_microsecond := 250 |}.

Definition jane : gmap string string :=
  <["name" := "Jane Doe"]>
    (<["email" := "jane@example.com"]> (<["message" := "Hello"]> ∅)).

Definition jane_db : Database := (create_client jane sample_now empty_database).2.

(** What every stored row satisfies: a status of the enumeration and a
    read flag that is 0 or 1. *)
Definition row_ok (row : ClientRow) : Prop :=
  row_status row ∈ valid_statuses ∧
  (row_read_by_admin row = 0 ∨ row_read_by_admin row = 1).



(** ** Stand-ins for the collaborators, to run the routes on examples *)

Definition sample_check_password_hash (pwhash password : string) : bool :=
  bool_decide (pwhash = "plain$" +:+ password).


Definition sample_jwt_decode (token key : string) (now : datetime) : JwtDecode :=
  if String.prefix (key +:+ ".") token
  then Decoded {| dict_id := 1;
                  dict_username :=
                    String.substring (S (String.length key))
                      (String.length token - S (String.length key)) token;
                  dict_created_at := "2024-03-07 09:05:01" |}
  else InvalidTokenError.

Definition no_email : EmailManager :=
  {| smtp_server := "smtp.gmail.com"; smtp_port := 587;
     smtp_username := None; smtp_password := None |}.


Definition sample_app (em : EmailManager) : App :=
  {| secret_key := "k3y"; email := em |}.

Definition refused_smtp (em : EmailManager) (to_email subject body : string)
    : option string := Some "[Errno 111] Connection refused".

(** A freshly initialised database under the stand-in hash. *)
Definition fresh_db : Database :=
  init_database "plain$admin9048" [("contact_intro", "Hello")] sample_now
    empty_database.


(** ** More of the message lifecycle *)

(** What no call changes in a stored row: the fields the visitor
    submitted and the creation time. *)
Definition same_submission (row row' : ClientRow) : Prop :=
  row_name row' = row_name row ∧ row_email row' = row_email row ∧
  row_phone row' = row_phone row ∧ row_address row' = row_address row ∧
  row_project_type row' = row_project_type row ∧
  row_message row' = row_message row ∧
  row_created_at row' = row_created_at row.

(** The reply columns of a row. *)
Definition reply_of (row : ClientRow) : Z * option string * string * string :=
  (row_replied_by_admin row, row_reply_date row, row_reply_content row,
   row_reply_admin row).

(** How one call may change the notes and the reply of a stored row: the
    notes grow at their end, and the reply columns stay or are written
    together with the read flag. *)
Definition row_change (row row' : ClientRow) : Prop :=
  same_submission row row' ∧
  (∃ suffix, row_admin_notes row' = row_admin_notes row +:+ suffix) ∧
  (reply_of row' = reply_of row ∨
   (row_replied_by_admin row' = 1 ∧ row_read_by_admin row' = 1 ∧
    ∃ date, row_reply_date row' = Some date ∧ date ≠ "")).

(** What the reply columns of every stored row satisfy. *)
Definition reply_ok (row : ClientRow) : Prop :=
  (row_replied_by_admin row = 0 ∨ row_replied_by_admin row = 1) ∧
  (row_replied_by_admin row = 1 →
   row_read_by_admin row = 1 ∧ ∃ date, row_reply_date row = Some date ∧ date ≠ "").

(** A sequence of calls, first to last. *)
Definition run_all (ops : list Op) (db : Database) : Database :=
  foldl (λ db op, run op db) db ops.

(** The ids in use never exceed the AUTOINCREMENT counter. *)
Definition seq_ok (db : Database) : Prop :=
  0 ≤ clients_seq db ∧ ∀ k row, clients db !! k = Some row → k ≤ clients_seq db.

(** A database with some history: Jane's submission, read with a note. *)
Definition jane_read_db : Database :=
  run (MarkRead 1 "called back" "admin")
    (run (Create jane sample_now)
       (init_database "plain$admin9048" [] sample_now empty_database)).

(** [counts.get(key, 0)] on the dict of [get_message_counts]. *)
Definition counter (db : Database) (key : string) : nat :=
  default 0%nat (get_message_counts db !! key).

(** A key of the per-status dict: present only with a positive count. *)
Definition group_count (n : nat) : option nat :=
  match n with
  | O => None
  | S _ => Some n
  end.


(** ** DatabaseManager: listing and passwords *)

(** The condition [get_clients] puts in its WHERE clause for a filter
    (none for no filter, an empty one, or one it does not know). *)
Definition get_clients_where (filter_type : option string) : Z → ClientRow → bool :=
  match filter_type with
  | None => λ _ _, true
  | Some f =>
    if negb (Py.truthy f) then λ _ _, true
    else if decide (f = "unread") then λ _ r, bool_decide (row_read_by_admin r = 0)
    else if decide (f = "read") then λ _ r, bool_decide (row_read_by_admin r = 1)
    else if decide (f = "replied") then λ _ r, bool_decide (row_replied_by_admin r = 1)
    else if decide (f = "not_replied") then
      λ _ r, bool_decide (row_replied_by_admin r = 0) &&
             bool_decide (row_read_by_admin r = 1)
    else if bool_decide (f ∈ valid_statuses) then
      λ _ r, bool_decide (row_status r = f)
    else λ _ _, true
  end.

(** [get_clients]: the selected rows as [Client] objects, ordered by
    [created_at DESC].  SQLite leaves the order of rows with equal keys
    open, so the result is any such ordering of the selection. *)
Definition get_clients_returns (filter_type : option string) (db : Database)
    (result : list Client.t) : Prop :=
  result ≡ₚ (λ kr, _row_to_client kr.1 kr.2) <$>
            map_to_list (filter (λ kr, get_clients_where filter_type kr.1 kr.2 = true)
                           (clients db)) ∧
  Sorted (λ a b, String.le (Client.created_at b) (Client.created_at a)) result.

(** The counter of [get_message_counts] a filter of [get_clients]
    corresponds to: its own name, ["read_not_replied"] for
    ["not_replied"], the total for anything else. *)
Definition filter_counter (filter_type : option string) : string :=
  match filter_type with
  | None => "total"
  | Some f =>
    if decide (f = "not_replied") then "read_not_replied"
    else if bool_decide (f ∈ ["unread"; "read"; "replied"] ++ valid_statuses)
    then f else "total"
  end.

Definition with_admin_users (l : list AdminUser.t) (db : Database) : Database :=
  {| clients := clients db; clients_seq := clients_seq db;
     website_content := website_content db;
     website_content_seq := website_content_seq db;
     admin_users := l;
     admin_users_seq := admin_users_seq db |}.

Definition set_password_hash (pwhash : string) (u : AdminUser.t) : AdminUser.t :=
  {| AdminUser.id := AdminUser.id u; AdminUser.username := AdminUser.username u;
     AdminUser.password_hash := pwhash;
     AdminUser.created_at := AdminUser.created_at u |}.

Section Passwords.

Variable check_password_hash : string → string → bool.
(** [werkzeug.security.generate_password_hash]; the salt it draws is part
    of the environment. *)
Variable generate_password_hash : string → string.

Definition change_admin_password (username current_password new_password : string)
    (db : Database) : (bool * string) * Database :=
  match filter (λ u, AdminUser.username u = username) (admin_users db) with
  | [] => ((false, "User not found"), db)
  | row :: _ =>
    if negb (check_password_hash (AdminUser.password_hash row) current_password)
    then ((false, "Current password is incorrect"), db)
    else
      ((true, "Password updated successfully"),
       with_admin_users
         ((λ u, if decide (AdminUser.username u = username)
                then set_password_hash (generate_password_hash new_password) u
                else u) <$> admin_users db) db)
  end.

End Passwords.

(** ** More operator routes *)

Section OperatorRoutes.

Variable check_password_hash : string → string → bool.
Variable generate_password_hash : string → string.
Variable jwt_decode : string → string → datetime → JwtDecode.
Variable smtp_session : EmailManager → string → string → string → option string.
Variable json_dumps : json → string.
Variable app : App.

Definition route_change_password (authorization : option string)
    (data : gmap string string) (now : datetime) (db : Database)
    : Response * Database :=
  match require_admin jwt_decode app authorization now with
  | inl denied => (denied, db)
  | inr admin_data =>
    if missing data "current_password" || missing data "new_password"
    then ({| body := Error "Both passwords are required"; status_code := 400 |}, db)
    else
      match change_admin_password check_password_hash generate_password_hash
              (dict_username admin_data)
              (default "" (data !! "current_password"))
              (default "" (data !! "new_password")) db with
      | ((false, message), db') =>
        ({| body := Error message; status_code := 400 |}, db')
      | ((true, message), db') => (jsonify (Message message), db')
      end
  end.

Definition route_update_client_status (authorization : option string)
    (data : gmap string string) (client_id : Z) (now : datetime) (db : Database)
    : Response * Database :=
  match require_admin jwt_decode app authorization now with
  | inl denied => (denied, db)
  | inr admin_data =>
    if missing data "status"
    then ({| body := Error "Status is required"; status_code := 400 |}, db)
    else
      match update_client_status client_id (default "" (data !! "status"))
              (dict_username admin_data) now db with
      | ((false, message), db') =>
        ({| body := Error message; status_code := 400 |}, db')
      | ((true, message), db') => (jsonify (Message message), db')
      end
  end.

Definition route_mark_client_as_read (authorization : option string)
    (data : gmap string string) (client_id : Z) (now : datetime) (db : Database)
    : Response * Database :=
  match require_admin jwt_decode app authorization now with
  | inl denied => (denied, db)
  | inr admin_data =>
    match mark_client_as_read client_id (default "" (data !! "admin_notes"))
            (dict_username admin_data) db with
    | ((false, message), db') =>
      ({| body := Error message; status_code := 404 |}, db')
    | ((true, message), db') => (jsonify (Message message), db')
    end
  end.

Definition route_mark_all_as_read (authorization : option string)
    (now : datetime) (db : Database) : Response * Database :=
  match require_admin jwt_decode app authorization now with
  | inl denied => (denied, db)
  | inr admin_data =>
    match mark_all_as_read (dict_username admin_data) now db with
    | ((false, message), db') =>
      ({| body := Error message; status_code := 400 |}, db')
    | ((true, message), db') => (jsonify (Message message), db')
    end
  end.

Definition route_delete_client (authorization : option string)
    (client_id : Z) (now : datetime) (db : Database) : Response * Database :=
  match require_admin jwt_decode app authorization now with
  | inl denied => (denied, db)
  | inr admin_data =>
    match delete_client client_id db with
    | ((false, message), db') =>
      ({| body := Error message; status_code := 404 |}, db')
    | ((true, message), db') => (jsonify (Message message), db')
    end
  end.

(** A request to one of the operator routes that write to the database. *)
Inductive OperatorRequest :=
| PostChangePassword (data : gmap string string)
| PutStatus (client_id : Z) (data : gmap string string)
| PutRead (client_id : Z) (data : gmap string string)
| PutReply (client_id : Z) (data : gmap string string)
| PostSendReply (client_id : Z) (data : gmap string string)
| PutMarkAllRead
| DeleteClient (client_id : Z)
| PostContent (data : json).

(** The route Flask dispatches the request to. *)
Definition serve (authorization : option string) (request : OperatorRequest)
    (now : datetime) (db : Database) : Response * Database :=
  match request with
  | PostChangePassword data => route_change_password authorization data now db
  | PutStatus client_id data =>
    route_update_client_status authorization data client_id now db
  | PutRead client_id data =>
    route_mark_client_as_read authorization data client_id now db
  | PutReply client_id data =>
    route_mark_client_as_replied jwt_decode app authorization data client_id now db
  | PostSendReply client_id data =>
    route_send_client_reply jwt_decode smtp_session app authorization data
      client_id now db
  | PutMarkAllRead => route_mark_all_as_read authorization now db
  | DeleteClient client_id => route_delete_client authorization client_id now db
  | PostContent data =>
    route_save_content jwt_decode json_dumps app authorization data now db
  end.

End OperatorRoutes.

(** ** DatabaseManager: reply templates *)

(** One row of [email_templates], without its primary key. *)
Record TemplateRow := {
  template_name : string;
  template_subject : string;
  template_body : string;
  template_is_default : Z;
  template_created_at : string
}.

(** The [email_templates] table with its [sqlite_sequence] entry.  No
    operation on it touches another table, so it is kept on its own. *)
Record Templates := {
  email_templates : gmap Z TemplateRow;
  email_templates_seq : Z
}.

Definition no_templates : Templates :=
  {| email_templates := ∅; email_templates_seq := 0 |}.

(** The dict [get_email_templates] and [get_email_template] build. *)
Record TemplateDict := {
  tpl_id : Z;
  tpl_name : string;
  tpl_subject : string;
  tpl_body : string;
  tpl_is_default : bool
}.

Definition template_dict (k : Z) (r : TemplateRow) : TemplateDict :=
  {| tpl_id := k; tpl_name := template_name r; tpl_subject := template_subject r;
     tpl_body := template_body r;
     tpl_is_default := bool_decide (template_is_default r ≠ 0) |}.

(** [SELECT ... ORDER BY name]. *)
Definition get_email_templates (ts : Templates) : list TemplateDict :=
  merge_sort (λ a b, String.le (tpl_name a) (tpl_name b))
    ((λ kr, template_dict kr.1 kr.2) <$> map_to_list (email_templates ts)).

Definition get_email_template (template_id : Z) (ts : Templates)
    : option TemplateDict :=
  template_dict template_id <$> email_templates ts !! template_id.

(** The [template_data] dict: its optional ['id'] and its string fields. *)
Record TemplateData := {
  data_id : option Z;
  data_fields : gmap string string
}.

(** [str(e)] of the [IntegrityError] a second row of the same name raises. *)
Definition unique_name_error : string :=
  "UNIQUE constraint failed: email_templates.name".

(** Some row other than [except] has the name. *)
Definition name_taken (name : string) (except : option Z)
    (t : gmap Z TemplateRow) : bool :=
  bool_decide (map_Exists (λ k r, template_name r = name ∧ except ≠ Some k) t).

Definition insert_template (name subject body : string) (is_default : Z)
    (now : datetime) (ts : Templates) : Templates :=
  let rowid := Sql.next_rowid (email_templates ts) (email_templates_seq ts) in
  {| email_templates :=
       <[rowid := {| template_name := name; template_subject := subject;
                     template_body := body; template_is_default := is_default;
                     template_created_at := current_timestamp now |}]>
         (email_templates ts);
     email_templates_seq := rowid |}.

Definition save_email_template (template_data : TemplateData) (now : datetime)
    (ts : Templates) : (bool * string) * Templates :=
  let fields := data_fields template_data in
  match fields !! "name" with
  | None => ((false, key_error "name"), ts)
  | Some name =>
    match fields !! "subject" with
    | None => ((false, key_error "subject"), ts)
    | Some subject =>
      match fields !! "body" with
      | None => ((false, key_error "body"), ts)
      | Some body =>
        match data_id template_data with
        | Some template_id =>
          if decide (template_id = 0) then
            if name_taken name None (email_templates ts)
            then ((false, unique_name_error), ts)
            else ((true, "Template saved successfully"),
                  insert_template name subject body 0 now ts)
          else
            match email_templates ts !! template_id with
            | None => ((true, "Template saved successfully"), ts)
            | Some row =>
              if name_taken name (Some template_id) (email_templates ts)
              then ((false, unique_name_error), ts)
              else
                ((true, "Template saved successfully"),
                 {| email_templates :=
                      <[template_id :=
                          {| template_name := name; template_subject := subject;
                             template_body := body;
                             template_is_default := template_is_default row;
                             template_created_at := template_created_at row |}]>
                        (email_templates ts);
                    email_templates_seq := email_templates_seq ts |})
            end
        | None =>
          if name_taken name None (email_templates ts)
          then ((false, unique_name_error), ts)
          else ((true, "Template saved successfully"),
                insert_template name subject body 0 now ts)
        end
      end
    end
  end.

(** [DELETE FROM email_templates WHERE id = ? AND is_default = 0]. *)
Definition delete_email_template (template_id : Z) (ts : Templates)
    : (bool * string) * Templates :=
  match email_templates ts !! template_id with
  | Some row =>
    if decide (template_is_default row = 0) then
      ((true, "Template deleted successfully"),
       {| email_templates := delete template_id (email_templates ts);
          email_templates_seq := email_templates_seq ts |})
    else ((false, "Template not found or is default"), ts)
  | None => ((false, "Template not found or is default"), ts)
  end.

(** The template part of [init_database]: every default template whose
    name has no row yet is inserted with its flag.  [default_templates] is
    the module's seed list of (name, subject, body, is_default). *)
Definition seed_template (now : datetime) (ts : Templates)
    (entry : string * string * string * Z) : Templates :=
  let '(name, subject, body, is_default) := entry in
  if name_taken name None (email_templates ts) then ts
  else insert_template name subject body is_default now ts.

Definition init_templates (default_templates : list (string * string * string * Z))
    (now : datetime) (ts : Templates) : Templates :=
  foldl (seed_template now) ts default_templates.

(** One call that writes to the template table. *)
Inductive TemplateOp :=
| SaveTemplate (template_data : TemplateData) (now : datetime)
| DeleteTemplate (template_id : Z)
| InitTemplates (default_templates : list (string * string * string * Z))
    (now : datetime).

Definition run_template (op : TemplateOp) (ts : Templates) : Templates :=
  match op with
  | SaveTemplate template_data now => (save_email_template template_data now ts).2
  | DeleteTemplate template_id => (delete_email_template template_id ts).2
  | InitTemplates default_templates now => init_templates default_templates now ts
  end.

(** The template tables the application can be in. *)
Inductive reachable_templates : Templates → Prop :=
| reachable_templates_init default_templates now :
    reachable_templates (init_templates default_templates now no_templates)
| reachable_templates_step op ts :
    reachable_templates ts → reachable_templates (run_template op ts).

(** A sequence of calls on the template table, first to last. *)
Definition run_all_templates (ops : list TemplateOp) (ts : Templates) : Templates :=
  foldl (λ ts op, run_template op ts) ts ops.

(** No two templates share a name. *)
Definition names_unique (t : gmap Z TemplateRow) : Prop :=
  ∀ k1 k2 r1 r2, t !! k1 = Some r1 → t !! k2 = Some r2 →
                 template_name r1 = template_name r2 → k1 = k2.

(** The names and flags of the module's three default templates, with
    stand-in subjects and bodies, and the table seeded from them. *)
Definition sample_templates : list (string * string * string * Z) :=
  [("initial_reply", "Thank you for contacting Dr. Foscah Faith", "Dear {name},", 1);
   ("follow_up", "Follow-up on your inquiry", "Dear {name},", 0);
   ("project_accepted", "Project Discussion - Next Steps", "Dear {name},", 0)].

Definition seeded_templates : Templates :=
  init_templates sample_templates sample_now no_templates.

(** The call is one the operator can make (not the seeding of a start). *)
Definition by_operator (op : TemplateOp) : bool :=
  match op with
  | InitTemplates _ _ => false
  | _ => true
  end.

(** * Properties *)

(** ** The SQL statements *)

Section SqlFacts.
Implicit Types (t : gmap Z ClientRow) (w : Z → ClientRow → bool).

Lemma updated_lookup w set t k :
  Sql.updated w set t !! k = (λ r, if w k r then set r else r) <$> t !! k.
Proof. unfold Sql.updated. rewrite map_lookup_imap. by destruct (t !! k). Qed.

Lemma updated_by_id set t cid k :
  Sql.updated (Sql.by_id cid) set t !! k
  = if decide (k = cid) then set <$> t !! k else t !! k.
Proof.
  rewrite updated_lookup. unfold Sql.by_id.
  case_decide; [rewrite bool_decide_true by done|rewrite bool_decide_false by done];
    by destruct (t !! k).
Qed.

Lemma count_empty w : Sql.count w ∅ = 0%nat.
Proof. unfold Sql.count. by rewrite map_filter_empty, map_size_empty. Qed.

Lemma count_insert w t k r :
  t !! k = None →
  Sql.count w (<[k := r]> t) = ((if w k r then 1 else 0) + Sql.count w t)%nat.
Proof.
  intros Hk. unfold Sql.count. destruct (w k r) eqn:Hw.
  - rewrite map_filter_insert_True by done.
    rewrite map_size_insert_None; [done|].
    by rewrite map_lookup_filter, Hk.
  - rewrite map_filter_insert_not'; [done|cbn; congruence|].
    intros y Hy. congruence.
Qed.

Lemma count_by_id t cid :
  Sql.count (Sql.by_id cid) t = match t !! cid with Some _ => 1%nat | None => 0%nat end.
Proof.
  induction t as [|k r t Hk IH] using map_ind.
  - by rewrite count_empty, lookup_empty.
  - rewrite count_insert, IH by done. unfold Sql.by_id.
    case_bool_decide as Hkc.
    + subst k. by rewrite lookup_insert_eq, Hk.
    + by rewrite lookup_insert_ne.
Qed.

(** Two complementary conditions split the table. *)
Lemma count_partition w1 w2 t :
  (∀ k r, t !! k = Some r → w1 k r = negb (w2 k r)) →
  (Sql.count w1 t + Sql.count w2 t = Sql.count (λ _ _, true) t)%nat.
Proof.
  induction t as [|k r t Hk IH] using map_ind; intros Hw.
  - by rewrite !count_empty.
  - rewrite !count_insert by done.
    rewrite (Hw k r) by apply lookup_insert_eq.
    assert (Sql.count w1 t + Sql.count w2 t = Sql.count (λ _ _, true) t)%nat
      as <-.
    { apply IH. intros k' r' Hr'. apply Hw.
      rewrite lookup_insert_ne; [done|]. intros ->. congruence. }
    destruct (w2 k r); cbn; lia.
Qed.

Lemma deleted_lookup w t k :
  Sql.deleted w t !! k = t !! k ≫= λ r, if w k r then None else Some r.
Proof.
  unfold Sql.deleted. rewrite map_lookup_filter. destruct (t !! k) as [r|]; [|done].
  cbn. destruct (w k r); by case_guard.
Qed.

Lemma max_rowid_ge {A} (m : gmap Z A) k x : m !! k = Some x → k ≤ Sql.max_rowid m.
Proof.
  unfold Sql.max_rowid. revert k x.
  apply (map_fold_weak_ind
           (λ acc (m : gmap Z A), ∀ k x, m !! k = Some x → k ≤ acc)).
  - intros k x. by rewrite lookup_empty.
  - intros i y m' acc Hi IH k x. rewrite lookup_insert.
    case_decide; [intros _; subst; lia|]. intros Hk.
    specialize (IH k x Hk). lia.
Qed.

Lemma next_rowid_fresh {A} (m : gmap Z A) seq : m !! Sql.next_rowid m seq = None.
Proof.
  destruct (m !! Sql.next_rowid m seq) as [x|] eqn:Hx; [|done].
  apply max_rowid_ge in Hx. unfold Sql.next_rowid in Hx. lia.
Qed.

End SqlFacts.

(** ** The client operations, call by call *)

Section LifecycleFacts.
Implicit Types (db : Database) (row : ClientRow) (t : gmap Z ClientRow).

Lemma updated_present set t cid row :
  t !! cid = Some row → Sql.updated (Sql.by_id cid) set t = <[cid := set row]> t.
Proof.
  intros Hc. apply map_eq; intros k. rewrite updated_by_id, lookup_insert.
  repeat case_decide; subst; try done. by rewrite Hc.
Qed.

Lemma deleted_by_id t cid : Sql.deleted (Sql.by_id cid) t = delete cid t.
Proof.
  apply map_eq; intros k. rewrite deleted_lookup, lookup_delete. unfold Sql.by_id.
  destruct (decide (cid = k)) as [->|Hne].
  - rewrite bool_decide_true by done. by destruct (t !! k).
  - rewrite bool_decide_false by done. by destruct (t !! k).
Qed.

Lemma update_client_status_invalid cid status admin_name now db :
  status ∉ valid_statuses →
  update_client_status cid status admin_name now db
  = ((false, invalid_status_message), db).
Proof. intros H. unfold update_client_status. by rewrite bool_decide_false. Qed.

Lemma update_client_status_absent cid status admin_name now db :
  status ∈ valid_statuses → clients db !! cid = None →
  update_client_status cid status admin_name now db
  = ((false, "Client not found"), db).
Proof.
  intros Hs Hc. unfold update_client_status, Sql.update.
  rewrite bool_decide_true by done.
  by rewrite count_by_id, Hc.
Qed.

Lemma update_client_status_present cid status admin_name now db row :
  status ∈ valid_statuses → clients db !! cid = Some row →
  update_client_status cid status admin_name now db
  = ((true, "Status updated successfully"),
     with_clients (<[cid := status_changed now status admin_name row]> (clients db)) db).
Proof.
  intros Hs Hc. unfold update_client_status, Sql.update.
  rewrite bool_decide_true by done.
  rewrite count_by_id, Hc. cbn [fst snd]. do 2 f_equal.
  rewrite (updated_present _ _ _ _ Hc). unfold status_changed.
  destruct (Py.truthy admin_name); [|done].
  erewrite updated_present by apply lookup_insert_eq.
  by rewrite insert_insert_eq.
Qed.

Lemma mark_client_as_read_absent cid admin_notes admin_name db :
  clients db !! cid = None →
  mark_client_as_read cid admin_notes admin_name db
  = ((false, "Client not found"), db).
Proof.
  intros Hc. unfold mark_client_as_read, Sql.update. by rewrite count_by_id, Hc.
Qed.

Lemma mark_client_as_read_present cid admin_notes admin_name db row :
  clients db !! cid = Some row →
  mark_client_as_read cid admin_notes admin_name db
  = ((true, "Client marked as read"),
     with_clients (<[cid := marked_read admin_notes row]> (clients db)) db).
Proof.
  intros Hc. unfold mark_client_as_read, Sql.update.
  rewrite count_by_id, Hc. cbn [fst snd]. do 2 f_equal.
  by rewrite (updated_present _ _ _ _ Hc).
Qed.

Lemma mark_client_as_replied_absent cid reply_content admin_name now db :
  clients db !! cid = None →
  mark_client_as_replied cid reply_content admin_name now db
  = ((false, "Client not found"), db).
Proof.
  intros Hc. unfold mark_client_as_replied, Sql.update. by rewrite count_by_id, Hc.
Qed.

Lemma mark_client_as_replied_present cid reply_content admin_name now db row :
  clients db !! cid = Some row →
  mark_client_as_replied cid reply_content admin_name now db
  = ((true, "Client marked as replied"),
     with_clients
       (<[cid := set_replied (isoformat now) reply_content admin_name row]>
          (clients db)) db).
Proof.
  intros Hc. unfold mark_client_as_replied, Sql.update.
  rewrite count_by_id, Hc. cbn [fst snd]. do 2 f_equal.
  by rewrite (updated_present _ _ _ _ Hc).
Qed.

Lemma update_reply_clients cid reply_content admin_name now db :
  clients (update_reply cid reply_content admin_name now db).2
  = clients (mark_client_as_replied cid reply_content admin_name now db).2.
Proof.
  unfold update_reply, mark_client_as_replied, Sql.update.
  by destruct (decide _).
Qed.

Lemma delete_client_clients cid db :
  clients (delete_client cid db).2 = delete cid (clients db).
Proof.
  unfold delete_client, Sql.delete. rewrite count_by_id.
  destruct (clients db !! cid) eqn:Hc; cbn.
  - apply deleted_by_id.
  - by rewrite delete_id.
Qed.

End LifecycleFacts.

(** ** One step of the transition system *)

Section StepFacts.
Implicit Types (db : Database) (row : ClientRow) (op : Op).

Lemma row_step_refl row : row_step row row.
Proof. split; by left. Qed.

Lemma create_client_clients client_data now db :
  clients (create_client client_data now db).2 = clients db ∨
  ∃ name email message,
    client_data !! "name" = Some name ∧ client_data !! "email" = Some email ∧
    client_data !! "message" = Some message ∧
    clients (create_client client_data now db).2
    = <[Sql.next_rowid (clients db) (clients_seq db) :=
          inserted_row name email
            (default "" (client_data !! "phone"))
            (default "" (client_data !! "address"))
            (default "" (client_data !! "project_type")) message now]> (clients db).
Proof.
  unfold create_client.
  destruct (client_data !! "name") as [name|]; [|by left].
  destruct (client_data !! "email") as [email|]; [|by left].
  destruct (client_data !! "message") as [message|]; [|by left].
  right. exists name, email, message. repeat split.
  cbn [clients]. by rewrite lookup_insert_eq.
Qed.

Lemma save_website_content_clients content_data now db :
  clients (save_website_content content_data now db).2 = clients db.
Proof.
  unfold save_website_content. cbn [snd]. revert db.
  induction content_data as [|e l IH]; intros db; [done|].
  cbn [foldl]. by rewrite IH.
Qed.

Lemma init_database_clients admin_hash default_content now db :
  clients (init_database admin_hash default_content now db) = clients db.
Proof.
  unfold init_database.
  assert (clients (seed_admin admin_hash now db) = clients db) as <-.
  { unfold seed_admin. by case_decide. }
  generalize (seed_admin admin_hash now db). clear db.
  induction default_content as [|e l IH]; intros db; [done|].
  cbn [foldl]. rewrite IH. unfold seed_content. by destruct (_ !! _).
Qed.

(** Every row after a call is a row of before, changed by [row_step], or
    the row a submission has just inserted. *)
Lemma run_rows op db k row' :
  clients (run op db) !! k = Some row' →
  (∃ row, clients db !! k = Some row ∧ row_step row row') ∨
  (clients db !! k = None ∧ row_status row' = "new" ∧
   row_read_by_admin row' = 0 ∧ row_replied_by_admin row' = 0).
Proof.
  assert (∀ t, t = clients db → t !! k = Some row' →
               ∃ row, clients db !! k = Some row ∧ row_step row row') as Hsame.
  { intros t -> Hk. eauto using row_step_refl. }
  destruct op as [admin_hash default_content now
                 |client_data now|cid status admin_name now|cid admin_notes admin_name
                 |admin_name now|cid reply_content admin_name now
                 |cid reply_content admin_name now|cid|content_data now];
    cbn [run].
  - rewrite init_database_clients. left. by eapply Hsame.
  - destruct (create_client_clients client_data now db)
      as [->|(name & email & message & _ & _ & _ & ->)]; [by left; eapply Hsame|].
    rewrite lookup_insert. case_decide as Hk; [|by left; eapply Hsame].
    intros [= <-]. subst k. right. by rewrite next_rowid_fresh.
  - destruct (decide (status ∈ valid_statuses)) as [Hs|Hs];
      [|rewrite update_client_status_invalid by done; left; by eapply Hsame].
    destruct (clients db !! cid) as [row|] eqn:Hc;
      [|rewrite update_client_status_absent by done; left; by eapply Hsame].
    rewrite (update_client_status_present _ _ _ _ _ _ Hs Hc). cbn [snd clients with_clients].
    rewrite lookup_insert. case_decide as Hk; [|by left; eapply Hsame].
    intros [= <-]. subst k. left. exists row. split; [done|].
    unfold status_changed. destruct (Py.truthy admin_name); split; cbn; auto.
  - destruct (clients db !! cid) as [row|] eqn:Hc;
      [|rewrite mark_client_as_read_absent by done; left; by eapply Hsame].
    rewrite (mark_client_as_read_present _ _ _ _ _ Hc). cbn [snd clients with_clients].
    rewrite lookup_insert. case_decide as Hk; [|by left; eapply Hsame].
    intros [= <-]. subst k. left. exists row. split; [done|]. split; cbn; auto.
  - unfold mark_all_as_read, Sql.update. cbn [snd clients with_clients].
    rewrite updated_lookup. destruct (clients db !! k) as [row|]; [|done].
    cbn. intros [= <-]. left. exists row. split; [done|].
    case_bool_decide; [split; cbn; auto|apply row_step_refl].
  - destruct (clients db !! cid) as [row|] eqn:Hc;
      [|rewrite mark_client_as_replied_absent by done; left; by eapply Hsame].
    rewrite (mark_client_as_replied_present _ _ _ _ _ _ Hc). cbn [snd clients with_clients].
    rewrite lookup_insert. case_decide as Hk; [|by left; eapply Hsame].
    intros [= <-]. subst k. left. exists row. split; [done|]. split; cbn; auto.
  - rewrite update_reply_clients.
    destruct (clients db !! cid) as [row|] eqn:Hc;
      [|rewrite mark_client_as_replied_absent by done; left; by eapply Hsame].
    rewrite (mark_client_as_replied_present _ _ _ _ _ _ Hc). cbn [snd clients with_clients].
    rewrite lookup_insert. case_decide as Hk; [|by left; eapply Hsame].
    intros [= <-]. subst k. left. exists row. split; [done|]. split; cbn; auto.
  - rewrite delete_client_clients. intros Hk%lookup_delete_Some.
    left. exists row'. split; [apply Hk|apply row_step_refl].
  - rewrite save_website_content_clients. left. by eapply Hsame.
Qed.

(** The four lifecycle calls keep every row. *)
Lemma run_keeps op db k row :
  lifecycle op = true → clients db !! k = Some row →
  is_Some (clients (run op db) !! k).
Proof.
  destruct op as [admin_hash default_content now
                 |client_data now|cid status admin_name now|cid admin_notes admin_name
                 |admin_name now|cid reply_content admin_name now
                 |cid reply_content admin_name now|cid|content_data now];
    cbn [run lifecycle]; try done; intros _ Hk.
  - destruct (decide (status ∈ valid_statuses)) as [Hs|Hs];
      [|rewrite update_client_status_invalid by done; cbn [snd]; by rewrite Hk].
    destruct (clients db !! cid) as [r|] eqn:Hc;
      [|rewrite update_client_status_absent by done; cbn [snd]; by rewrite Hk].
    rewrite (update_client_status_present _ _ _ _ _ _ Hs Hc). cbn [snd clients with_clients].
    rewrite lookup_insert. case_decide; [done|by rewrite Hk].
  - destruct (clients db !! cid) as [r|] eqn:Hc;
      [|rewrite mark_client_as_read_absent by done; cbn [snd]; by rewrite Hk].
    rewrite (mark_client_as_read_present _ _ _ _ _ Hc). cbn [snd clients with_clients].
    rewrite lookup_insert. case_decide; [done|by rewrite Hk].
  - unfold mark_all_as_read, Sql.update. cbn [snd clients with_clients].
    by rewrite updated_lookup, Hk.
  - destruct (clients db !! cid) as [r|] eqn:Hc;
      [|rewrite mark_client_as_replied_absent by done; cbn [snd]; by rewrite Hk].
    rewrite (mark_client_as_replied_present _ _ _ _ _ _ Hc). cbn [snd clients with_clients].
    rewrite lookup_insert. case_decide; [done|by rewrite Hk].
Qed.

End StepFacts.

(** ** Invariants of the reachable databases *)

Section Invariants.
Implicit Types (db : Database) (row : ClientRow).

Lemma new_is_valid : "new" ∈ valid_statuses.
Proof. unfold valid_statuses. set_solver. Qed.

Lemma run_row_ok op db :
  map_Forall (λ _ row, row_ok row) (clients db) →
  map_Forall (λ _ row, row_ok row) (clients (run op db)).
Proof.
  intros Hdb k row' [(row & Hrow & Hst & Hrd)|(_ & Hst & Hrd & _)]%run_rows.
  - destruct (Hdb k row Hrow) as [Hs Hr]. split.
    + destruct Hst as [->|]; done.
    + destruct Hrd as [->|]; auto.
  - split; [rewrite Hst; apply new_is_valid|auto].
Qed.

Lemma reachable_row_ok db :
  reachable db → map_Forall (λ _ row, row_ok row) (clients db).
Proof.
  induction 1 as [admin_hash default_content now|op db _ IH].
  - rewrite init_database_clients. apply map_Forall_empty.
  - by apply run_row_ok.
Qed.

Lemma status_counts_key (t : gmap Z ClientRow) s :
  is_Some (status_counts t !! s) → ∃ k row, t !! k = Some row ∧ row_status row = s.
Proof.
  unfold status_counts. revert s.
  apply (map_fold_weak_ind
           (λ (acc : gmap string nat) (m : gmap Z ClientRow),
              ∀ s, is_Some (acc !! s) → ∃ k row, m !! k = Some row ∧ row_status row = s)).
  - intros s. rewrite lookup_empty. by intros [? ?].
  - intros k row m acc Hk IH s. rewrite lookup_insert. case_decide as Hs.
    + intros _. exists k, row. by rewrite lookup_insert_eq.
    + intros (k' & row' & Hk' & Hrow')%IH. exists k', row'.
      rewrite lookup_insert_ne; [done|]. intros ->. congruence.
Qed.

(** A counter whose name is not a status survives [counts.update]. *)
Lemma get_message_counts_counter db key :
  map_Forall (λ _ row, row_ok row) (clients db) →
  key ∉ valid_statuses →
  get_message_counts db !! key = counters (clients db) !! key.
Proof.
  intros Hdb Hkey. unfold get_message_counts. apply lookup_union_r.
  destruct (status_counts (clients db) !! key) eqn:Hs; [|done].
  destruct (status_counts_key (clients db) key) as (k & row & Hrow & <-); [by eexists|].
  destruct (Hdb k row Hrow) as [? _]. done.
Qed.

End Invariants.

(** ** Status changes *)




(** C3: a status outside the enumeration is refused with the "Invalid
    status" message before the database is touched: the whole database,
    and so every field of every row, is what it was. *)
Theorem set_status_rejects_unknown_status cid status admin_name now db :
  status ∉ valid_statuses →
  update_client_status cid status admin_name now db
  = ((false,
      "Invalid status. Must be one of: new, contacted, in_progress, completed, archived"),
     db) ∧
  clients (update_client_status cid status admin_name now db).2 !! cid
  = clients db !! cid.
Proof.
  intros Hs. rewrite update_client_status_invalid by done. done.
Qed.

Lemma set_status_rejects_unknown_status_example :
("bogus" ∉ valid_statuses) ∧
  update_client_status 1 "bogus" "admin" sample_now jane_db
  = ((false,
      "Invalid status. Must be one of: new, contacted, in_progress, completed, archived"),
     jane_db) ∧
  clients (update_client_status 1 "bogus" "admin" sample_now jane_db).2 !! 1
  = clients jane_db !! 1.
Proof.
  assert ("bogus" ∉ valid_statuses) as Hs by compute_done.
  split; [exact Hs|].
  exact (set_status_rejects_unknown_status 1 "bogus" "admin" sample_now jane_db Hs).
Defined.

(** ** The read flag *)

(** C10: a row that is read stays read.  After each of the four lifecycle
    calls (mark read, mark all read, status change, reply) the row is
    still stored and still read; and no call of the database manager at
    all, whatever its arguments, leaves a stored row that was read
    unread. *)
Theorem read_flag_never_cleared op db cid row :
  clients db !! cid = Some row → is_read row = true →
  (lifecycle op = true →
   ∃ row', clients (run op db) !! cid = Some row' ∧ is_read row' = true ∧
           (row_read_by_admin row = 1 → row_read_by_admin row' = 1)) ∧
  (∀ row', clients (run op db) !! cid = Some row' →
           is_read row' = true ∧
           (row_read_by_admin row = 1 → row_read_by_admin row' = 1)).
Proof.
  intros Hrow Hread.
  assert (∀ row', clients (run op db) !! cid = Some row' →
            is_read row' = true ∧
            (row_read_by_admin row = 1 → row_read_by_admin row' = 1)) as Hafter.
  { intros row' [(row0 & Hrow0 & _ & Hrd)|(Hnone & _)]%run_rows; [|congruence].
    assert (row0 = row) as -> by congruence.
    unfold is_read in *. apply bool_decide_eq_true in Hread.
    destruct Hrd as [Hrd|Hrd]; rewrite Hrd; split; auto.
    by apply bool_decide_eq_true. }
  split; [|exact Hafter].
  intros Hop. destruct (run_keeps op db cid row Hop Hrow) as [row' Hrow'].
  exists row'. split; [done|]. by apply Hafter.
Qed.

Lemma read_flag_never_cleared_example :
  let db := run (MarkRead 1 "called back" "admin") jane_db in
  let row := set_read_notes "called back" "" (inserted_row "Jane Doe" "jane@example.com" "" "" "" "Hello" sample_now) in
  let op := SetStatus 1 "archived" "" sample_now in
  clients db !! 1 = Some row ∧ is_read row = true ∧
  (lifecycle op = true →
   ∃ row', clients (run op db) !! 1 = Some row' ∧ is_read row' = true ∧
           (row_read_by_admin row = 1 → row_read_by_admin row' = 1)) ∧
  (∀ row', clients (run op db) !! 1 = Some row' →
           is_read row' = true ∧
           (row_read_by_admin row = 1 → row_read_by_admin row' = 1)).
Proof.
  intros db row op.
  assert (clients db !! 1 = Some row) as Hrow by (by vm_compute).
  assert (is_read row = true) as Hread by (by vm_compute).
  split; [exact Hrow|]. split; [exact Hread|].
  exact (read_flag_never_cleared op db 1 row Hrow Hread).
Defined.

(** ** The invariants of the specification *)

(** C4: in every database reachable from a freshly initialised one by the
    calls of the database manager, every submission has one of the five
    statuses. *)
Theorem status_always_in_enumeration db :
  reachable db →
  ∀ cid row, clients db !! cid = Some row → row_status row ∈ valid_statuses.
Proof.
  intros Hdb cid row Hrow. by destruct (reachable_row_ok db Hdb cid row Hrow).
Qed.

Lemma status_always_in_enumeration_example :
  let db :=
    run (SetStatus 1 "completed" "admin" sample_now)
      (run (Create jane sample_now)
         (init_database "pbkdf2:sha256$salt$hash" [("contact_intro", "Hello")]
            sample_now empty_database)) in
  reachable db ∧
  ∀ cid row, clients db !! cid = Some row → row_status row ∈ valid_statuses.
Proof.
  intros db.
  assert (reachable db) as Hdb by (do 2 apply reachable_step; apply reachable_init).
  split; [exact Hdb|]. exact (status_always_in_enumeration db Hdb).
Defined.

(** C5: in every reachable database the counters of [get_message_counts]
    satisfy unread + read = total. *)
Theorem unread_plus_read_is_total db :
  reachable db →
  ∃ total unread read,
    get_message_counts db !! "total" = Some total ∧
    get_message_counts db !! "unread" = Some unread ∧
    get_message_counts db !! "read" = Some read ∧
    (unread + read = total)%nat.
Proof.
  intros Hdb%reachable_row_ok.
  exists (Sql.count (λ _ _, true) (clients db)),
         (Sql.count (λ _ r, bool_decide (row_read_by_admin r = 0)) (clients db)),
         (Sql.count (λ _ r, bool_decide (row_read_by_admin r = 1)) (clients db)).
  rewrite !get_message_counts_counter by (done || compute_done).
  repeat split; try done.
  apply count_partition. intros k r Hr. destruct (Hdb k r Hr) as [_ [->| ->]]; done.
Qed.

Lemma unread_plus_read_is_total_example :
  let db :=
    run (MarkAllRead "admin" sample_now)
      (run (Create jane sample_now)
         (run (Create jane sample_now)
            (init_database "pbkdf2:sha256$salt$hash" [] sample_now empty_database))) in
  reachable db ∧
  ∃ total unread read,
    get_message_counts db !! "total" = Some total ∧
    get_message_counts db !! "unread" = Some unread ∧
    get_message_counts db !! "read" = Some read ∧
    (unread + read = total)%nat.
Proof.
  intros db.
  assert (reachable db) as Hdb by (do 3 apply reachable_step; apply reachable_init).
  split; [exact Hdb|]. exact (unread_plus_read_is_total db Hdb).
Defined.

(** ** Submissions *)

Section CreateFacts.
Implicit Types (data : gmap string string) (db : Database).



End CreateFacts.


Example create_jane :
  (route_create_client jane sample_now empty_database).1
  = {| body := Created "Thank you for your message! We will contact you soon."
                 {| Client.id := 1; Client.name := "Jane Doe";
                    Client.email := "jane@example.com"; Client.phone := "";
                    Client.address := ""; Client.project_type := "";
                    Client.message := "Hello"; Client.status := "new";
                    Client.created_at := "2024-03-07 09:05:01";
                    Client.read_by_admin := false; Client.admin_notes := "";
                    Client.replied_by_admin := false; Client.reply_date := "";
                    Client.reply_content := ""; Client.reply_admin := "" |};
       status_code := 201 |}.
Proof. by vm_compute. Qed.

Example create_without_message :
  route_create_client (delete "message" jane) sample_now empty_database
  = ({| body := Error "message is required"; status_code := 400 |}, empty_database).
Proof. by vm_compute. Qed.

(** ** Authentication *)

Section AuthFacts.
Variable check_password_hash : string → string → bool.
Variable jwt_encode : AdminDict → datetime → string → string.




End AuthFacts.



Example login_scenarios :
  authenticate_admin sample_check_password_hash "admin" "wrong" fresh_db
  = (false, "Invalid credentials", None) ∧
  (authenticate_admin sample_check_password_hash "admin" "admin9048" fresh_db).1
  = (true, "Authentication successful").
Proof. by vm_compute. Qed.

(** ** Replies *)

Lemma isoformat_nonempty now : isoformat now ≠ "".
Proof. unfold isoformat. by destruct (Py.zfill 4 (dt_year now)). Qed.




(** ** Sending a reply by email *)



Example send_reply_without_transport :
  (route_send_client_reply sample_jwt_decode refused_smtp (sample_app no_email)
     (Some "Bearer k3y.admin") {["reply_content" := "Thanks!"]} 1 sample_now jane_db).1
  = {| body := Replied "Reply saved (email not configured)" false;
       status_code := 200 |}.
Proof. by vm_compute. Qed.

(** ** Site content *)

Section ContentFacts.
Implicit Types (db : Database) (l : list (string * string)).







End ContentFacts.




Example numeric_string_read_back :
  route_get_content JsonRef.loads
    (route_save_content sample_jwt_decode JsonRef.dumps (sample_app no_email)
       (Some "Bearer k3y.admin") (JObj [("contact_intro", JStr "123")])
       sample_now empty_database).2
  = jsonify (Content {["contact_intro" := JInt 123]}).
Proof. by vm_compute. Qed.

(** ** What a call does to a stored row *)

Section ChangeFacts.
Implicit Types (db : Database) (row : ClientRow) (op : Op).

Lemma append_empty_r (s : string) : s +:+ "" = s.
Proof.
  induction s as [|c s IH]; [done|].
  change (String c s +:+ "") with (String c (s +:+ "")). by rewrite IH.
Qed.

Lemma same_submission_refl row : same_submission row row.
Proof. by repeat split. Qed.

Lemma row_change_refl row : row_change row row.
Proof.
  split; [apply same_submission_refl|]. split; [|by left].
  exists "". by rewrite append_empty_r.
Qed.

Lemma row_change_status_changed now status admin_name row :
  row_change row (status_changed now status admin_name row).
Proof.
  unfold status_changed.
  destruct (Py.truthy admin_name); (split; [by repeat split|]); (split; [|by left]); cbn.
  - by eexists.
  - exists "". by rewrite append_empty_r.
Qed.

Lemma row_change_set_read_notes first rest row :
  (first = "" → rest = "") →
  row_change row (set_read_notes first rest row).
Proof.
  intros Hfirst. split; [by repeat split|]. split; [|by left]. cbn.
  case_decide as Hnotes; [|by eexists]. rewrite Hnotes. by exists first.
Qed.

Lemma row_change_set_replied now reply_content admin_name row :
  row_change row (set_replied (isoformat now) reply_content admin_name row).
Proof.
  split; [by repeat split|]. split.
  - exists "". cbn. by rewrite append_empty_r.
  - right. cbn. repeat split. eexists. split; [done|]. apply isoformat_nonempty.
Qed.

(** Every row that a call keeps is changed by [row_change] at most. *)
Lemma run_row_change op db k row row' :
  clients db !! k = Some row → clients (run op db) !! k = Some row' →
  row_change row row'.
Proof.
  intros Hrow.
  assert (∀ t, t = clients db → t !! k = Some row' → row_change row row') as Hsame.
  { intros t -> Hk. assert (row' = row) as -> by congruence. apply row_change_refl. }
  destruct op as [admin_hash default_content now
                 |client_data now|cid status admin_name now|cid admin_notes admin_name
                 |admin_name now|cid reply_content admin_name now
                 |cid reply_content admin_name now|cid|content_data now];
    cbn [run].
  - rewrite init_database_clients. by eapply Hsame.
  - destruct (create_client_clients client_data now db)
      as [->|(name & email & message & _ & _ & _ & ->)]; [by eapply Hsame|].
    rewrite lookup_insert. case_decide as Hk; [|by eapply Hsame].
    subst k. by rewrite next_rowid_fresh in Hrow.
  - destruct (decide (status ∈ valid_statuses)) as [Hs|Hs];
      [|rewrite update_client_status_invalid by done; by eapply Hsame].
    destruct (clients db !! cid) as [r|] eqn:Hc;
      [|rewrite update_client_status_absent by done; by eapply Hsame].
    rewrite (update_client_status_present _ _ _ _ _ _ Hs Hc). cbn [snd clients with_clients].
    rewrite lookup_insert. case_decide as Hk; [|by eapply Hsame].
    intros [= <-]. subst k. assert (r = row) as -> by congruence.
    apply row_change_status_changed.
  - destruct (clients db !! cid) as [r|] eqn:Hc;
      [|rewrite mark_client_as_read_absent by done; by eapply Hsame].
    rewrite (mark_client_as_read_present _ _ _ _ _ Hc). cbn [snd clients with_clients].
    rewrite lookup_insert. case_decide as Hk; [|by eapply Hsame].
    intros [= <-]. subst k. assert (r = row) as -> by congruence.
    apply row_change_set_read_notes. intros ->. done.
  - unfold mark_all_as_read, Sql.update. cbn [snd clients with_clients].
    rewrite updated_lookup, Hrow. cbn. intros [= <-].
    case_bool_decide; [|apply row_change_refl].
    apply row_change_set_read_notes. by destruct (Py.truthy admin_name).
  - destruct (clients db !! cid) as [r|] eqn:Hc;
      [|rewrite mark_client_as_replied_absent by done; by eapply Hsame].
    rewrite (mark_client_as_replied_present _ _ _ _ _ _ Hc). cbn [snd clients with_clients].
    rewrite lookup_insert. case_decide as Hk; [|by eapply Hsame].
    intros [= <-]. subst k. assert (r = row) as -> by congruence.
    apply row_change_set_replied.
  - rewrite update_reply_clients.
    destruct (clients db !! cid) as [r|] eqn:Hc;
      [|rewrite mark_client_as_replied_absent by done; by eapply Hsame].
    rewrite (mark_client_as_replied_present _ _ _ _ _ _ Hc). cbn [snd clients with_clients].
    rewrite lookup_insert. case_decide as Hk; [|by eapply Hsame].
    intros [= <-]. subst k. assert (r = row) as -> by congruence.
    apply row_change_set_replied.
  - rewrite delete_client_clients. intros Hk%lookup_delete_Some.
    destruct Hk as [_ Hk]. by eapply Hsame.
  - rewrite save_website_content_clients. by eapply Hsame.
Qed.

End ChangeFacts.

(** ** Row ids *)

Section RowidFacts.
Implicit Types (db : Database) (row : ClientRow) (op : Op).

Lemma append_assoc (a b c : string) : (a +:+ b) +:+ c = a +:+ (b +:+ c).
Proof.
  induction a as [|x a IH]; [done|].
  change ((String x a +:+ b) +:+ c) with (String x ((a +:+ b) +:+ c)).
  by rewrite IH.
Qed.

Lemma max_rowid_le {A} (m : gmap Z A) bound :
  0 ≤ bound → (∀ k x, m !! k = Some x → k ≤ bound) → Sql.max_rowid m ≤ bound.
Proof.
  intros Hb. unfold Sql.max_rowid.
  apply (map_fold_weak_ind
           (λ acc (m : gmap Z A), (∀ k x, m !! k = Some x → k ≤ bound) → acc ≤ bound)).
  - done.
  - intros i y m' acc Hi IH Hall.
    assert (i ≤ bound) by (apply (Hall i y), lookup_insert_eq).
    assert (acc ≤ bound); [|lia].
    apply IH. intros k x Hk. apply (Hall k x).
    rewrite lookup_insert_ne; [done|]. intros ->. congruence.
Qed.

Lemma next_rowid_seq_ok db :
  seq_ok db → Sql.next_rowid (clients db) (clients_seq db) = clients_seq db + 1.
Proof.
  intros [Hseq Hkeys]. unfold Sql.next_rowid.
  pose proof (max_rowid_le (clients db) (clients_seq db) Hseq Hkeys). lia.
Qed.

Lemma with_clients_seq t db : clients_seq (with_clients t db) = clients_seq db.
Proof. done. Qed.

(** The counter after a call: unchanged, or the id the call has just
    assigned. *)
Lemma run_seq op db :
  (clients_seq (run op db) = clients_seq db ∧
   ∀ k, clients db !! k = None → clients (run op db) !! k = None) ∨
  (clients_seq (run op db) = Sql.next_rowid (clients db) (clients_seq db) ∧
   ∀ k, clients db !! k = None → is_Some (clients (run op db) !! k) →
        k = Sql.next_rowid (clients db) (clients_seq db)).
Proof.
  destruct op as [admin_hash default_content now
                 |client_data now|cid status admin_name now|cid admin_notes admin_name
                 |admin_name now|cid reply_content admin_name now
                 |cid reply_content admin_name now|cid|content_data now];
    cbn [run].
  - left. split; [|intros k Hk; by rewrite init_database_clients].
    unfold init_database.
    assert (clients_seq (seed_admin admin_hash now db) = clients_seq db) as <-.
    { unfold seed_admin. by case_decide. }
    generalize (seed_admin admin_hash now db). clear db.
    induction default_content as [|e l IH]; intros db; [done|].
    cbn [foldl]. rewrite IH. unfold seed_content. by destruct (_ !! _).
  - unfold create_client.
    destruct (client_data !! "name") as [name|]; [|by left].
    destruct (client_data !! "email") as [email|]; [|by left].
    destruct (client_data !! "message") as [message|]; [|by left].
    right. cbn [clients]. rewrite lookup_insert_eq. cbn [snd clients clients_seq].
    split; [done|]. intros k Hk. rewrite lookup_insert. case_decide; [done|].
    rewrite Hk. by intros [? ?].
  - left. destruct (decide (status ∈ valid_statuses)) as [Hs|Hs];
      [|rewrite update_client_status_invalid by done; by split].
    destruct (clients db !! cid) as [r|] eqn:Hc;
      [|rewrite update_client_status_absent by done; by split].
    rewrite (update_client_status_present _ _ _ _ _ _ Hs Hc).
    split; [done|]. intros k Hk. cbn [snd clients with_clients].
    rewrite lookup_insert_ne; [done|]. intros ->. congruence.
  - left. destruct (clients db !! cid) as [r|] eqn:Hc;
      [|rewrite mark_client_as_read_absent by done; by split].
    rewrite (mark_client_as_read_present _ _ _ _ _ Hc).
    split; [done|]. intros k Hk. cbn [snd clients with_clients].
    rewrite lookup_insert_ne; [done|]. intros ->. congruence.
  - left. unfold mark_all_as_read, Sql.update. cbn [snd]. split; [done|].
    intros k Hk. cbn [clients with_clients]. by rewrite updated_lookup, Hk.
  - left. destruct (clients db !! cid) as [r|] eqn:Hc;
      [|rewrite mark_client_as_replied_absent by done; by split].
    rewrite (mark_client_as_replied_present _ _ _ _ _ _ Hc).
    split; [done|]. intros k Hk. cbn [snd clients with_clients].
    rewrite lookup_insert_ne; [done|]. intros ->. congruence.
  - left. split.
    + unfold update_reply, Sql.update. by destruct (decide _).
    + intros k Hk. rewrite update_reply_clients.
      destruct (clients db !! cid) as [r|] eqn:Hc;
        [|by rewrite mark_client_as_replied_absent].
      rewrite (mark_client_as_replied_present _ _ _ _ _ _ Hc).
      cbn [snd clients with_clients].
      rewrite lookup_insert_ne; [done|]. intros ->. congruence.
  - left. split.
    + unfold delete_client, Sql.delete. by destruct (decide _).
    + intros k Hk. rewrite delete_client_clients. by apply lookup_delete_None; right.
  - left. split; [|intros k Hk; by rewrite save_website_content_clients].
    unfold save_website_content. cbn [snd]. revert db.
    induction content_data as [|e l IH]; intros db; [done|].
    cbn [foldl]. by rewrite IH.
Qed.

Lemma run_seq_ok op db : seq_ok db → seq_ok (run op db).
Proof.
  intros Hok. pose proof (next_rowid_seq_ok db Hok) as Hnext.
  destruct Hok as [Hseq Hkeys]. unfold seq_ok.
  destruct (run_seq op db) as [[Heq Hnone]|[Heq Hnew]]; rewrite Heq.
  - split; [done|]. intros k row' Hk.
    destruct (clients db !! k) as [row|] eqn:Hrow; [by eapply Hkeys|].
    rewrite Hnone in Hk by done. done.
  - rewrite Hnext. split; [lia|]. intros k row' Hk.
    destruct (clients db !! k) as [row|] eqn:Hrow.
    + specialize (Hkeys k row Hrow). lia.
    + rewrite (Hnew k Hrow), Hnext by (by eexists). lia.
Qed.

Lemma run_seq_mono op db : seq_ok db → clients_seq db ≤ clients_seq (run op db).
Proof.
  intros Hok. pose proof (next_rowid_seq_ok db Hok) as Hnext.
  destruct (run_seq op db) as [[-> _]|[-> _]]; lia.
Qed.

Lemma reachable_seq_ok db : reachable db → seq_ok db.
Proof.
  induction 1 as [admin_hash default_content now|op db _ IH].
  - destruct (run_seq (Restart admin_hash default_content now) empty_database)
      as [[Heq Hnone]|[Heq _]]; cbn [run] in *.
    + split; [by rewrite Heq|]. intros k row. by rewrite Hnone.
    + split; [by rewrite Heq|]. intros k row. by rewrite init_database_clients.
  - by apply run_seq_ok.
Qed.

(** An id that is free and not above the counter stays free. *)
Lemma run_all_free ops db k :
  seq_ok db → k ≤ clients_seq db → clients db !! k = None →
  clients (run_all ops db) !! k = None.
Proof.
  revert db. induction ops as [|op ops IH]; intros db Hok Hk Hfree; [done|].
  cbn [run_all foldl]. apply IH.
  - by apply run_seq_ok.
  - pose proof (run_seq_mono op db Hok). lia.
  - pose proof (next_rowid_seq_ok db Hok) as Hnext.
    destruct (run_seq op db) as [[_ Hnone]|[_ Hnew]]; [by apply Hnone|].
    destruct (clients (run op db) !! k) eqn:Hafter; [|done].
    rewrite (Hnew k Hfree) in Hk by (by eexists). lia.
Qed.

Lemma run_all_seq_ok ops db : seq_ok db → seq_ok (run_all ops db).
Proof.
  revert db. induction ops as [|op ops IH]; intros db Hok; [done|].
  cbn [run_all foldl]. by apply IH, run_seq_ok.
Qed.

Lemma run_all_seq_mono ops db :
  seq_ok db → clients_seq db ≤ clients_seq (run_all ops db).
Proof.
  revert db. induction ops as [|op ops IH]; intros db Hok; [done|].
  cbn [run_all foldl]. pose proof (run_seq_mono op db Hok).
  pose proof (IH (run op db) (run_seq_ok op db Hok)). unfold run_all in *. lia.
Qed.

(** Over any sequence of calls a row that is still stored has kept what
    the visitor submitted, and its notes have only grown. *)
Lemma run_all_history ops db k row row' :
  seq_ok db → clients db !! k = Some row → clients (run_all ops db) !! k = Some row' →
  same_submission row row' ∧
  ∃ suffix, row_admin_notes row' = row_admin_notes row +:+ suffix.
Proof.
  revert db row. induction ops as [|op ops IH]; intros db row Hok Hrow Hrow'.
  - cbn in Hrow'. assert (row' = row) as -> by congruence.
    split; [apply same_submission_refl|]. exists "". by rewrite append_empty_r.
  - cbn [run_all foldl] in Hrow'.
    destruct (clients (run op db) !! k) as [row1|] eqn:Hrow1.
    + destruct (run_row_change op db k row row1 Hrow Hrow1)
        as ((?&?&?&?&?&?&?) & [s1 Hs1] & _).
      destruct (IH (run op db) row1 (run_seq_ok op db Hok) Hrow1 Hrow')
        as ((?&?&?&?&?&?&?) & [s2 Hs2]).
      split; [repeat split; congruence|].
      exists (s1 +:+ s2). by rewrite Hs2, Hs1, append_assoc.
    + assert (clients (run_all ops (run op db)) !! k = None) as Hnone.
      { apply run_all_free; [by apply run_seq_ok| |done].
        pose proof (run_seq_mono op db Hok).
        destruct Hok as [_ Hkeys]. specialize (Hkeys k row Hrow). lia. }
      unfold run_all in *. congruence.
Qed.

End RowidFacts.

(** ** Histories of a stored row *)

(** X1: the operator notes are append-only.  Whatever calls are made on a
    reachable database, a row that is still stored afterwards has its
    earlier notes as the beginning of its notes. *)
Theorem notes_are_append_only ops db cid row row' :
  reachable db →
  clients db !! cid = Some row → clients (run_all ops db) !! cid = Some row' →
  ∃ suffix, row_admin_notes row' = row_admin_notes row +:+ suffix.
Proof.
  intros Hdb%reachable_seq_ok Hrow Hrow'.
  by destruct (run_all_history ops db cid row row' Hdb Hrow Hrow') as [_ ?].
Qed.

Lemma notes_are_append_only_example :
  let ops := [SetStatus 1 "contacted" "admin" sample_now; MarkAllRead "admin" sample_now;
              MarkRead 1 "sent quote" "admin"] in
  reachable jane_read_db ∧
  ∃ row row',
    clients jane_read_db !! 1 = Some row ∧
    clients (run_all ops jane_read_db) !! 1 = Some row' ∧
    ∃ suffix, row_admin_notes row' = row_admin_notes row +:+ suffix.
Proof.
  intros ops.
  assert (reachable jane_read_db) as Hdb
    by (do 2 apply reachable_step; apply reachable_init).
  split; [exact Hdb|].
  destruct (clients jane_read_db !! 1) as [row|] eqn:Hrow; [|by vm_compute in Hrow].
  destruct (clients (run_all ops jane_read_db) !! 1) as [row'|] eqn:Hrow';
    [|by vm_compute in Hrow'].
  exists row, row'. split; [done|]. split; [done|].
  exact (notes_are_append_only ops jane_read_db 1 row row' Hdb Hrow Hrow').
Defined.

(** X2: what the visitor submitted and the creation time are immutable.
    Whatever calls are made on a reachable database, a row that is still
    stored afterwards has the name, email, phone, address, project type,
    message and creation time it had. *)
Theorem submission_is_immutable ops db cid row row' :
  reachable db →
  clients db !! cid = Some row → clients (run_all ops db) !! cid = Some row' →
  row_name row' = row_name row ∧ row_email row' = row_email row ∧
  row_phone row' = row_phone row ∧ row_address row' = row_address row ∧
  row_project_type row' = row_project_type row ∧
  row_message row' = row_message row ∧
  row_created_at row' = row_created_at row.
Proof.
  intros Hdb%reachable_seq_ok Hrow Hrow'.
  by destruct (run_all_history ops db cid row row' Hdb Hrow Hrow') as [? _].
Qed.

Lemma submission_is_immutable_example :
  let ops := [Reply 1 "Thanks!" "admin" sample_now; SetStatus 1 "completed" "admin" sample_now] in
  reachable jane_read_db ∧
  ∃ row row',
    clients jane_read_db !! 1 = Some row ∧
    clients (run_all ops jane_read_db) !! 1 = Some row' ∧
    row_name row' = row_name row ∧ row_email row' = row_email row ∧
    row_phone row' = row_phone row ∧ row_address row' = row_address row ∧
    row_project_type row' = row_project_type row ∧
    row_message row' = row_message row ∧
    row_created_at row' = row_created_at row.
Proof.
  intros ops.
  assert (reachable jane_read_db) as Hdb
    by (do 2 apply reachable_step; apply reachable_init).
  split; [exact Hdb|].
  destruct (clients jane_read_db !! 1) as [row|] eqn:Hrow; [|by vm_compute in Hrow].
  destruct (clients (run_all ops jane_read_db) !! 1) as [row'|] eqn:Hrow';
    [|by vm_compute in Hrow'].
  exists row, row'. split; [done|]. split; [done|].
  exact (submission_is_immutable ops jane_read_db 1 row row' Hdb Hrow Hrow').
Defined.

(** X3: ids are never given out twice.  If a row is stored under an id in
    a reachable database then, whatever calls follow (deleting that row
    included), a later submission gets a larger id, and one that is free. *)
Theorem created_id_is_new ops db cid row client_data now message client db' :
  reachable db → clients db !! cid = Some row →
  create_client client_data now (run_all ops db)
  = ((true, message, Some client), db') →
  (cid < Client.id client) ∧
  clients (run_all ops db) !! Client.id client = None ∧
  is_Some (clients db' !! Client.id client).
Proof.
  intros Hdb%reachable_seq_ok Hrow Hcreate.
  pose proof (run_all_seq_mono ops db Hdb) as Hmono.
  pose proof (next_rowid_seq_ok _ (run_all_seq_ok ops db Hdb)) as Hnext.
  destruct Hdb as [_ Hkeys]. specialize (Hkeys cid row Hrow).
  unfold create_client in Hcreate.
  destruct (client_data !! "name") as [name|]; [|done].
  destruct (client_data !! "email") as [email|]; [|done].
  destruct (client_data !! "message") as [msg|]; [|done].
  cbn [clients] in Hcreate. rewrite lookup_insert_eq in Hcreate.
  injection Hcreate as _ <- <-. cbn [Client.id _row_to_client clients].
  split; [lia|]. split; [apply next_rowid_fresh|]. by rewrite lookup_insert_eq.
Qed.

Lemma created_id_is_new_example :
  let ops := [Delete 1] in
  reachable jane_read_db ∧
  ∃ row message client db',
    clients jane_read_db !! 1 = Some row ∧
    create_client jane sample_now (run_all ops jane_read_db)
    = ((true, message, Some client), db') ∧
    (1 < Client.id client) ∧
    clients (run_all ops jane_read_db) !! Client.id client = None ∧
    is_Some (clients db' !! Client.id client).
Proof.
  intros ops.
  assert (reachable jane_read_db) as Hdb
    by (do 2 apply reachable_step; apply reachable_init).
  split; [exact Hdb|].
  destruct (clients jane_read_db !! 1) as [row|] eqn:Hrow; [|by vm_compute in Hrow].
  destruct (create_client jane sample_now (run_all ops jane_read_db))
    as [[[ok message] [client|]] db'] eqn:Hcreate; [|by vm_compute in Hcreate].
  destruct ok; [|by vm_compute in Hcreate].
  exists row, message, client, db'. split; [done|]. split; [done|].
  exact (created_id_is_new ops jane_read_db 1 row jane sample_now message client db'
           Hdb Hrow Hcreate).
Defined.

(** ** Replies and counters *)

Section CounterFacts.
Implicit Types (db : Database) (row : ClientRow) (t : gmap Z ClientRow).

Lemma run_reply_ok op db :
  map_Forall (λ _ row, reply_ok row) (clients db) →
  map_Forall (λ _ row, reply_ok row) (clients (run op db)).
Proof.
  intros Hdb k row' Hrow'.
  destruct (run_rows op db k row' Hrow')
    as [(row & Hrow & _ & Hrd)|(_ & _ & _ & Hrep)].
  - destruct (Hdb k row Hrow) as [H01 Hread].
    destruct (run_row_change op db k row row' Hrow Hrow')
      as (_ & _ & [Hsame|(Hrep & Hread' & Hdate)]).
    + injection Hsame as Hr Hd _ _. split; [by rewrite Hr|].
      rewrite Hr, Hd. intros [Hone Hdate]%Hread. split; [|done].
      destruct Hrd as [->|]; done.
    + split; [by right|done].
  - split; [by left|]. rewrite Hrep. done.
Qed.

Lemma reachable_reply_ok db :
  reachable db → map_Forall (λ _ row, reply_ok row) (clients db).
Proof.
  induction 1 as [admin_hash default_content now|op db _ IH].
  - rewrite init_database_clients. apply map_Forall_empty.
  - by apply run_reply_ok.
Qed.

(** A condition that is the disjoint union of two others. *)
Lemma count_split w w1 w2 t :
  (∀ k r, t !! k = Some r → w k r = xorb (w1 k r) (w2 k r) ∧
                             (w1 k r && w2 k r = false)) →
  (Sql.count w1 t + Sql.count w2 t = Sql.count w t)%nat.
Proof.
  induction t as [|k r t Hk IH] using map_ind; intros Hw.
  - by rewrite !count_empty.
  - rewrite !count_insert by done.
    destruct (Hw k r) as [-> Hdisj]; [apply lookup_insert_eq|].
    assert (Sql.count w1 t + Sql.count w2 t = Sql.count w t)%nat as <-.
    { apply IH. intros k' r' Hr'. apply Hw.
      rewrite lookup_insert_ne; [done|]. intros ->. congruence. }
    destruct (w1 k r), (w2 k r); cbn in *; (done || lia).
Qed.

Lemma status_counts_lookup t s :
  status_counts t !! s
  = group_count (Sql.count (λ _ r, bool_decide (row_status r = s)) t).
Proof.
  unfold status_counts. revert s.
  apply (map_fold_weak_ind
           (λ (acc : gmap string nat) (m : gmap Z ClientRow),
              ∀ s, acc !! s
                   = group_count
                       (Sql.count (λ _ r, bool_decide (row_status r = s)) m))).
  - intros s. by rewrite lookup_empty, count_empty.
  - intros k row m acc Hk IH s. rewrite count_insert by done.
    rewrite lookup_insert. case_decide as Hs.
    + subst s. rewrite bool_decide_true by done. rewrite IH.
      by destruct (Sql.count _ m).
    + rewrite bool_decide_false by done. apply IH.
Qed.

Lemma count_true_by_status t :
  map_Forall (λ _ row, row_ok row) t →
  Sql.count (λ _ _, true) t
  = (Sql.count (λ _ r, bool_decide (row_status r = "new")) t +
     Sql.count (λ _ r, bool_decide (row_status r = "contacted")) t +
     Sql.count (λ _ r, bool_decide (row_status r = "in_progress")) t +
     Sql.count (λ _ r, bool_decide (row_status r = "completed")) t +
     Sql.count (λ _ r, bool_decide (row_status r = "archived")) t)%nat.
Proof.
  induction t as [|k r t Hk IH] using map_ind; intros Hall.
  - by rewrite !count_empty.
  - rewrite !count_insert by done.
    apply map_Forall_insert in Hall as [[Hst _] Hall]; [|done].
    rewrite (IH Hall).
    unfold valid_statuses in Hst.
    repeat (apply elem_of_cons in Hst as [->|Hst];
            [repeat case_bool_decide; try done; lia|]).
    by apply elem_of_nil in Hst.
Qed.

End CounterFacts.

(** X4: a replied row is read and carries a reply date.  In every
    reachable database the replied flag of a row is 0 or 1, and when it is
    1 the read flag is 1 and the reply date is set and non-empty. *)
Theorem replied_rows_are_read_and_dated db :
  reachable db →
  ∀ cid row, clients db !! cid = Some row →
    (row_replied_by_admin row = 0 ∨ row_replied_by_admin row = 1) ∧
    (row_replied_by_admin row = 1 →
     row_read_by_admin row = 1 ∧
     ∃ date, row_reply_date row = Some date ∧ date ≠ "").
Proof. intros Hdb cid row Hrow. exact (reachable_reply_ok db Hdb cid row Hrow). Qed.

Lemma replied_rows_are_read_and_dated_example :
  let db := run (Reply 1 "Thanks!" "admin" sample_now) jane_read_db in
  reachable db ∧
  ∀ cid row, clients db !! cid = Some row →
    (row_replied_by_admin row = 0 ∨ row_replied_by_admin row = 1) ∧
    (row_replied_by_admin row = 1 →
     row_read_by_admin row = 1 ∧
     ∃ date, row_reply_date row = Some date ∧ date ≠ "").
Proof.
  intros db.
  assert (reachable db) as Hdb by (do 3 apply reachable_step; apply reachable_init).
  split; [exact Hdb|]. exact (replied_rows_are_read_and_dated db Hdb).
Defined.

(** X5: in every reachable database the counters of
    [get_message_counts] satisfy replied + read_not_replied = read. *)
Theorem replied_plus_pending_is_read db :
  reachable db →
  ∃ read replied read_not_replied,
    get_message_counts db !! "read" = Some read ∧
    get_message_counts db !! "replied" = Some replied ∧
    get_message_counts db !! "read_not_replied" = Some read_not_replied ∧
    (replied + read_not_replied = read)%nat.
Proof.
  intros Hdb. pose proof (reachable_row_ok db Hdb) as Hrow.
  pose proof (reachable_reply_ok db Hdb) as Hreply.
  exists (Sql.count (λ _ r, bool_decide (row_read_by_admin r = 1)) (clients db)),
         (Sql.count (λ _ r, bool_decide (row_replied_by_admin r = 1)) (clients db)),
         (Sql.count (λ _ r, bool_decide (row_read_by_admin r = 1) &&
                            bool_decide (row_replied_by_admin r = 0)) (clients db)).
  rewrite !get_message_counts_counter by (done || compute_done).
  repeat split; try done.
  apply count_split. intros k r Hr.
  destruct (Hreply k r Hr) as [[H0|H1] Hread].
  - rewrite H0. by destruct (bool_decide (row_read_by_admin r = 1)).
  - destruct (Hread H1) as [-> _]. by rewrite H1.
Qed.

Lemma replied_plus_pending_is_read_example :
  let db := run (Create jane sample_now)
              (run (Reply 1 "Thanks!" "admin" sample_now) jane_read_db) in
  reachable db ∧
  ∃ read replied read_not_replied,
    get_message_counts db !! "read" = Some read ∧
    get_message_counts db !! "replied" = Some replied ∧
    get_message_counts db !! "read_not_replied" = Some read_not_replied ∧
    (replied + read_not_replied = read)%nat.
Proof.
  intros db.
  assert (reachable db) as Hdb by (do 4 apply reachable_step; apply reachable_init).
  split; [exact Hdb|]. exact (replied_plus_pending_is_read db Hdb).
Defined.

(** X6: the per-status entries of [get_message_counts].  In every
    reachable database the entry of a status is the number of rows with
    that status, and is absent when there is none; so the five entries,
    read with a default of 0, add up to the total. *)
Theorem status_counts_add_up db :
  reachable db →
  (∀ s, s ∈ valid_statuses →
        get_message_counts db !! s
        = group_count (Sql.count (λ _ r, bool_decide (row_status r = s)) (clients db))) ∧
  (counter db "new" + counter db "contacted" + counter db "in_progress" +
   counter db "completed" + counter db "archived" = counter db "total")%nat.
Proof.
  intros Hdb%reachable_row_ok.
  assert (∀ s, s ∈ valid_statuses →
            get_message_counts db !! s
            = group_count
                (Sql.count (λ _ r, bool_decide (row_status r = s)) (clients db)))
    as Hstatus.
  { intros s Hs. unfold get_message_counts. rewrite lookup_union, status_counts_lookup.
    assert (counters (clients db) !! s = None) as ->.
    { unfold valid_statuses in Hs.
      repeat (apply elem_of_cons in Hs as [->|Hs]; [done|]). by apply elem_of_nil in Hs. }
    by destruct (group_count _). }
  split; [exact Hstatus|].
  assert (∀ n, default 0%nat (group_count n) = n) as Hgroup by (by intros []).
  unfold counter.
  rewrite (Hstatus "new"), (Hstatus "contacted"), (Hstatus "in_progress"),
    (Hstatus "completed"), (Hstatus "archived") by compute_done.
  rewrite !Hgroup.
  rewrite get_message_counts_counter by (done || compute_done).
  change (counters (clients db) !! "total")
    with (Some (Sql.count (λ _ _, true) (clients db))).
  cbn [default]. by rewrite (count_true_by_status _ Hdb).
Qed.

Lemma status_counts_add_up_example :
  let db := run (SetStatus 1 "contacted" "admin" sample_now)
              (run (Create jane sample_now) jane_read_db) in
  reachable db ∧
  (∀ s, s ∈ valid_statuses →
        get_message_counts db !! s
        = group_count (Sql.count (λ _ r, bool_decide (row_status r = s)) (clients db))) ∧
  (counter db "new" + counter db "contacted" + counter db "in_progress" +
   counter db "completed" + counter db "archived" = counter db "total")%nat.
Proof.
  intros db.
  assert (reachable db) as Hdb by (do 4 apply reachable_step; apply reachable_init).
  split; [exact Hdb|]. exact (status_counts_add_up db Hdb).
Defined.

(** ** Reading, deleting and replying *)

Section ReadFacts.
Implicit Types (db : Database) (row : ClientRow) (t : gmap Z ClientRow).


Lemma with_clients_id db : with_clients (clients db) db = db.
Proof. by destruct db. Qed.





End ReadFacts.




(** X10: no reply history is kept.  A second reply to the same id leaves
    the database exactly as if only the second reply had been made, and
    [update_reply] writes what [mark_client_as_replied] writes, with the
    same outcome. *)
Theorem reply_overwrites_previous_reply cid content1 admin1 now1 content2 admin2 now2 db :
  (mark_client_as_replied cid content2 admin2 now2
     (mark_client_as_replied cid content1 admin1 now1 db).2).2
  = (mark_client_as_replied cid content2 admin2 now2 db).2 ∧
  (update_reply cid content2 admin2 now2 db).2
  = (mark_client_as_replied cid content2 admin2 now2 db).2 ∧
  (update_reply cid content2 admin2 now2 db).1.1
  = (mark_client_as_replied cid content2 admin2 now2 db).1.1.
Proof.
  split.
  - destruct (clients db !! cid) as [row|] eqn:Hrow.
    + rewrite (mark_client_as_replied_present _ content1 _ _ _ _ Hrow).
      rewrite (mark_client_as_replied_present _ content2 _ _ _ _ Hrow). cbn [snd].
      erewrite mark_client_as_replied_present
        by (cbn [clients with_clients]; apply lookup_insert_eq).
      cbn [snd clients with_clients]. unfold with_clients. cbn.
      by rewrite insert_insert_eq.
    + rewrite (mark_client_as_replied_absent _ content1) by done. done.
  - unfold update_reply, mark_client_as_replied, Sql.update.
    by destruct (decide _).
Qed.

(** ** Passwords *)

Section PasswordFacts.
Variable check_password_hash : string → string → bool.
Variable generate_password_hash : string → string.

Lemma filter_rehash username pwhash other (l : list AdminUser.t) :
  filter (λ u, AdminUser.username u = other)
    ((λ u, if decide (AdminUser.username u = username)
           then set_password_hash pwhash u else u) <$> l)
  = (λ u, if decide (AdminUser.username u = username)
          then set_password_hash pwhash u else u) <$>
    filter (λ u, AdminUser.username u = other) l.
Proof.
  induction l as [|u l IH]; [done|]. cbn [fmap list_fmap].
  destruct (decide (AdminUser.username u = other)) as [Hu|Hu].
  - rewrite (filter_cons_True _ u) by done. cbn [fmap list_fmap].
    rewrite filter_cons_True by (by case_decide). by rewrite <-IH.
  - rewrite (filter_cons_False _ u) by done.
    rewrite filter_cons_False by (by case_decide). exact IH.
Qed.

Lemma filter_rehash_other username pwhash other (l : list AdminUser.t) :
  other ≠ username →
  filter (λ u, AdminUser.username u = other)
    ((λ u, if decide (AdminUser.username u = username)
           then set_password_hash pwhash u else u) <$> l)
  = filter (λ u, AdminUser.username u = other) l.
Proof.
  intros Hne. rewrite filter_rehash.
  induction l as [|u l IH]; [done|].
  destruct (decide (AdminUser.username u = other)) as [Hu|Hu].
  - rewrite filter_cons_True by done. cbn [fmap list_fmap]. rewrite IH.
    by rewrite decide_False by congruence.
  - by rewrite filter_cons_False.
Qed.

End PasswordFacts.

(** X11: [change_admin_password].  For an unknown user it fails with "User
    not found", for a wrong current password with "Current password is
    incorrect", both leaving the database as it was.  Otherwise it
    succeeds; submissions and site content are untouched; from then on the
    account accepts exactly the passwords that verify against the new
    hash; and every other account authenticates as before. *)
Theorem change_password_contract check_password_hash generate_password_hash
    username current_password new_password db :
  match filter (λ u, AdminUser.username u = username) (admin_users db) with
  | [] =>
    change_admin_password check_password_hash generate_password_hash
      username current_password new_password db
    = ((false, "User not found"), db)
  | row :: _ =>
    if check_password_hash (AdminUser.password_hash row) current_password then
      ∃ db',
        change_admin_password check_password_hash generate_password_hash
          username current_password new_password db
        = ((true, "Password updated successfully"), db') ∧
        clients db' = clients db ∧ website_content db' = website_content db ∧
        (∀ password,
           authenticate_admin check_password_hash username password db'
           = if check_password_hash (generate_password_hash new_password) password
             then (true, "Authentication successful",
                   Some (set_password_hash (generate_password_hash new_password) row))
             else (false, "Invalid credentials", None)) ∧
        (∀ other password, other ≠ username →
           authenticate_admin check_password_hash other password db'
           = authenticate_admin check_password_hash other password db)
    else
      change_admin_password check_password_hash generate_password_hash
        username current_password new_password db
      = ((false, "Current password is incorrect"), db)
  end.
Proof.
  unfold change_admin_password.
  destruct (filter _ (admin_users db)) as [|row rest] eqn:Hf; [done|].
  destruct (check_password_hash (AdminUser.password_hash row) current_password);
    [|done].
  cbn [negb]. eexists. split; [done|]. split; [done|]. split; [done|].
  assert (AdminUser.username row = username) as Hrow.
  { assert (row ∈ filter (λ u, AdminUser.username u = username) (admin_users db))
      as Hin by (rewrite Hf; left).
    by apply list_elem_of_filter in Hin as [? _]. }
  split.
  - intros password. unfold authenticate_admin. cbn [admin_users with_admin_users].
    rewrite filter_rehash, Hf. cbn [fmap list_fmap].
    rewrite decide_True by done. cbn [AdminUser.password_hash set_password_hash].
    by destruct (check_password_hash _ password).
  - intros other password Hne. unfold authenticate_admin.
    cbn [admin_users with_admin_users]. by rewrite filter_rehash_other.
Qed.

Example change_password_scenario :
  let generate := λ p : string, "plain$" +:+ p in
  let db' := (change_admin_password sample_check_password_hash generate
                "admin" "admin9048" "s3cret" fresh_db).2 in
  (authenticate_admin sample_check_password_hash "admin" "s3cret" db').1
  = (true, "Authentication successful") ∧
  authenticate_admin sample_check_password_hash "admin" "admin9048" db'
  = (false, "Invalid credentials", None) ∧
  change_admin_password sample_check_password_hash generate
    "admin" "wrong" "s3cret" fresh_db
  = ((false, "Current password is incorrect"), fresh_db).
Proof. by vm_compute. Qed.

(** ** The operator routes *)

Lemma require_admin_denied jwt_decode app authorization now denied :
  require_admin jwt_decode app authorization now = inl denied →
  status_code denied = 401.
Proof.
  unfold require_admin.
  destruct (get_auth_header authorization) as [token|]; [|by intros [= <-]].
  destruct (Py.truthy token); cbn [negb]; [|by intros [= <-]].
  destruct (verify_token jwt_decode app token now); [done|by intros [= <-]].
Qed.

(** X12: a request that does not pass the bearer-token guard is refused
    with 401 by every operator route that writes, and the database is left
    exactly as it was; a request without an Authorization header is such a
    request. *)
Theorem unauthenticated_requests_change_nothing check_password_hash
    generate_password_hash jwt_decode smtp_session json_dumps app
    authorization request now db denied :
  require_admin jwt_decode app authorization now = inl denied →
  serve check_password_hash generate_password_hash jwt_decode smtp_session
    json_dumps app authorization request now db = (denied, db) ∧
  status_code denied = 401 ∧
  require_admin jwt_decode app None now
  = inl {| body := Error "Authentication required"; status_code := 401 |}.
Proof.
  intros Hdenied. split; [|split; [by eapply require_admin_denied|done]].
  destruct request; cbn [serve];
    unfold route_change_password, route_update_client_status,
      route_mark_client_as_read, route_mark_client_as_replied,
      route_send_client_reply, route_mark_all_as_read, route_delete_client,
      route_save_content;
    by rewrite Hdenied.
Qed.

Lemma unauthenticated_requests_change_nothing_example :
  let denied := {| body := Error "Invalid token"; status_code := 401 |} in
  let authorization := Some "Bearer forged.admin" in
  require_admin sample_jwt_decode (sample_app no_email) authorization sample_now
  = inl denied ∧
  serve sample_check_password_hash (λ p, "plain$" +:+ p) sample_jwt_decode
    refused_smtp JsonRef.dumps (sample_app no_email) authorization
    (DeleteClient 1) sample_now jane_db = (denied, jane_db) ∧
  status_code denied = 401 ∧
  require_admin sample_jwt_decode (sample_app no_email) None sample_now
  = inl {| body := Error "Authentication required"; status_code := 401 |}.
Proof.
  intros denied authorization.
  assert (require_admin sample_jwt_decode (sample_app no_email) authorization
            sample_now = inl denied) as Hdenied by (by vm_compute).
  split; [exact Hdenied|].
  exact (unauthenticated_requests_change_nothing sample_check_password_hash
           (λ p, "plain$" +:+ p) sample_jwt_decode refused_smtp JsonRef.dumps
           (sample_app no_email) authorization (DeleteClient 1) sample_now jane_db
           denied Hdenied).
Defined.



(** ** Listings *)

Section ListingFacts.
Implicit Types (db : Database) (t : gmap Z ClientRow).

Lemma count_ext w1 w2 t :
  (∀ k r, t !! k = Some r → w1 k r = w2 k r) → Sql.count w1 t = Sql.count w2 t.
Proof.
  induction t as [|k r t Hk IH] using map_ind; intros Hw.
  - by rewrite !count_empty.
  - rewrite !count_insert by done. rewrite (Hw k r) by apply lookup_insert_eq.
    rewrite IH; [done|]. intros k' r' Hr'. apply Hw.
    rewrite lookup_insert_ne; [done|]. intros ->. congruence.
Qed.

Lemma get_message_counts_status db s :
  map_Forall (λ _ row, row_ok row) (clients db) → s ∈ valid_statuses →
  counter db s = Sql.count (λ _ r, bool_decide (row_status r = s)) (clients db).
Proof.
  intros Hdb Hs. unfold counter, get_message_counts.
  rewrite lookup_union, status_counts_lookup.
  assert (counters (clients db) !! s = None) as ->.
  { unfold valid_statuses in Hs.
    repeat (apply elem_of_cons in Hs as [->|Hs]; [done|]). by apply elem_of_nil in Hs. }
  by destruct (Sql.count _ (clients db)).
Qed.

Lemma get_clients_length filter_type db result :
  get_clients_returns filter_type db result →
  length result = Sql.count (get_clients_where filter_type) (clients db).
Proof.
  intros [Hperm _]. rewrite Hperm, length_fmap, length_map_to_list. done.
Qed.

(** Some listing always exists: sort the selection. *)
Lemma get_clients_returns_some filter_type db :
  ∃ result, get_clients_returns filter_type db result.
Proof.
  set (newest_first := λ a b, String.le (Client.created_at b) (Client.created_at a)).
  assert (Total newest_first) as Htotal.
  { intros a b. unfold newest_first. destruct (total String.le (Client.created_at a)
      (Client.created_at b)); auto. }
  eexists (merge_sort newest_first _). split.
  - apply merge_sort_Permutation.
  - by apply (Sorted_merge_sort newest_first).
Qed.

End ListingFacts.

(** X14: listings agree with the counters.  In every reachable database,
    whatever [get_clients] returns for a filter has as many entries as the
    counter of that filter in [get_message_counts] says (read with a
    default of 0): the filter's own counter for unread, read, replied and
    the five statuses, read_not_replied for not_replied, and the total for
    no filter, an empty one, "all" or any other word. *)
Theorem listing_agrees_with_counters filter_type db result :
  reachable db →
  get_clients_returns filter_type db result →
  length result = counter db (filter_counter filter_type).
Proof.
  intros Hdb%reachable_row_ok Hresult.
  rewrite (get_clients_length _ _ _ Hresult).
  assert (∀ key, key ∉ valid_statuses →
            counter db key = default 0%nat (counters (clients db) !! key)) as Hkey.
  { intros key Hkey. unfold counter. by rewrite get_message_counts_counter. }
  destruct filter_type as [f|]; [|by rewrite Hkey by compute_done].
  unfold get_clients_where, filter_counter.
  destruct (decide (f = "not_replied")) as [->|Hnr].
  { rewrite Hkey by compute_done. cbn. apply count_ext.
    intros k r _. apply andb_comm. }
  destruct (decide (f = "")) as [->|Hempty]; [by rewrite Hkey by compute_done|].
  unfold Py.truthy. rewrite (bool_decide_true (f ≠ "")) by done. cbn [negb].
  destruct (decide (f = "unread")) as [->|?]; [by rewrite Hkey by compute_done|].
  destruct (decide (f = "read")) as [->|?]; [by rewrite Hkey by compute_done|].
  destruct (decide (f = "replied")) as [->|?]; [by rewrite Hkey by compute_done|].
  case_bool_decide as Hs.
  - rewrite bool_decide_true by (apply elem_of_app; by right).
    by rewrite get_message_counts_status.
  - rewrite bool_decide_false; [by rewrite Hkey by compute_done|].
    intros [Hin|Hin]%elem_of_app; [|done].
    repeat (apply elem_of_cons in Hin as [->|Hin]; [done|]). by apply elem_of_nil in Hin.
Qed.

Lemma listing_agrees_with_counters_example :
  let result :=
    [_row_to_client 1
       (set_read_notes "called back" ""
          (inserted_row "Jane Doe" "jane@example.com" "" "" "" "Hello" sample_now))] in
  reachable jane_read_db ∧
  get_clients_returns (Some "read") jane_read_db result ∧
  length result = counter jane_read_db "read".
Proof.
  intros result.
  assert (reachable jane_read_db) as Hdb
    by (do 2 apply reachable_step; apply reachable_init).
  assert (get_clients_returns (Some "read") jane_read_db result) as Hresult.
  { split; [by vm_compute|]. repeat constructor. }
  split; [exact Hdb|]. split; [exact Hresult|].
  exact (listing_agrees_with_counters (Some "read") jane_read_db result Hdb Hresult).
Defined.

(** ** The Authorization header *)

Lemma substring_all (s : string) : String.substring 0 (String.length s) s = s.
Proof. induction s as [|c s IH]; [done|]. cbn. by rewrite IH. Qed.

Lemma until_space_no_space (s : string) :
  Py.contains " " s = false → until_space s = s.
Proof.
  induction s as [|c s IH]; [done|].
  cbn [Py.contains String.prefix until_space].
  destruct (ascii_dec " " c) as [<-|Hc].
  - by destruct s.
  - destruct (Ascii.eqb_spec c " ") as [->|_]; [done|].
    cbn [orb]. intros Hs. by rewrite IH.
Qed.

(** X15: the bearer token survives the header.  For a token without a
    space, the header ["Bearer " + token] yields exactly that token; a
    header that does not start with ["Bearer "], or no header, yields
    none. *)
Theorem bearer_token_round_trip token :
  Py.contains " " token = false →
  get_auth_header (Some ("Bearer " +:+ token)) = Some token ∧
  get_auth_header None = None ∧
  ∀ header, String.prefix "Bearer " header = false →
            get_auth_header (Some header) = None.
Proof.
  intros Htoken. split; [|split; [done|]].
  - change ("Bearer " +:+ token)
      with (String "B" (String "e" (String "a" (String "r" (String "e"
             (String "r" (String " " token))))))).
    unfold get_auth_header, Py.truthy.
    rewrite (bool_decide_true (_ ≠ "")) by done.
    cbn [andb String.prefix String.length Nat.sub String.substring].
    repeat (destruct (ascii_dec _ _); [|done]).
    rewrite Nat.sub_0_r, substring_all, until_space_no_space by done.
    by destruct token.
  - intros header Hprefix. unfold get_auth_header. rewrite Hprefix.
    by rewrite andb_false_r.
Qed.

Lemma bearer_token_round_trip_example :
  Py.contains " " "eyJhbGciOiJIUzI1NiJ9.e30.sig" = false ∧
  get_auth_header (Some "Bearer eyJhbGciOiJIUzI1NiJ9.e30.sig")
  = Some "eyJhbGciOiJIUzI1NiJ9.e30.sig".
Proof.
  assert (Py.contains " " "eyJhbGciOiJIUzI1NiJ9.e30.sig" = false) as Htoken
    by (by vm_compute).
  split; [exact Htoken|].
  exact (proj1 (bearer_token_round_trip "eyJhbGciOiJIUzI1NiJ9.e30.sig" Htoken)).
Defined.

(** ** Initialisation *)

Section InitFacts.
Implicit Types (db : Database) (l : list (string * string)).

Lemma seed_content_admin_users now l db :
  admin_users (foldl (seed_content now) db l) = admin_users db.
Proof.
  revert db. induction l as [|e l IH]; intros db; [done|].
  cbn [foldl]. rewrite IH. unfold seed_content. by destruct (_ !! _).
Qed.

Lemma seed_content_keeps now l db sec row :
  website_content db !! sec = Some row →
  website_content (foldl (seed_content now) db l) !! sec = Some row.
Proof.
  revert db. induction l as [|e l IH]; intros db Hrow; [done|].
  cbn [foldl]. apply IH. unfold seed_content.
  destruct (website_content db !! e.1) eqn:He; [done|].
  cbn. rewrite lookup_insert_ne; [done|]. intros Heq. rewrite Heq in He. congruence.
Qed.

Lemma seed_content_has now l db sec :
  sec ∈ l.*1 → is_Some (website_content (foldl (seed_content now) db l) !! sec).
Proof.
  revert db. induction l as [|e l IH]; intros db Hsec.
  - by apply elem_of_nil in Hsec.
  - cbn in Hsec. cbn [foldl]. apply elem_of_cons in Hsec as [->|Hsec]; [|by apply IH].
    assert (is_Some (website_content (seed_content now db e) !! e.1)) as [row Hrow].
    { unfold seed_content. destruct (website_content db !! e.1) eqn:He; [by eexists|].
      cbn. rewrite lookup_insert_eq. by eexists. }
    exists row. by apply seed_content_keeps.
Qed.

Lemma seed_content_nothing_to_do now l db :
  (∀ sec, sec ∈ l.*1 → is_Some (website_content db !! sec)) →
  foldl (seed_content now) db l = db.
Proof.
  induction l as [|e l IH]; intros Hall; [done|].
  cbn [foldl]. assert (seed_content now db e = db) as ->.
  { destruct (Hall e.1) as [row Hrow]; [cbn; left|].
    unfold seed_content. by rewrite Hrow. }
  apply IH. intros sec Hsec. apply Hall. cbn. by right.
Qed.

Lemma seed_admin_nothing_to_do admin_hash now db u :
  u ∈ admin_users db → AdminUser.username u = "admin" →
  seed_admin admin_hash now db = db.
Proof.
  intros Hu Hname. unfold seed_admin. case_decide as Hlen; [|done].
  apply length_zero_iff_nil in Hlen.
  assert (u ∈ filter (λ u, AdminUser.username u = "admin") (admin_users db))
    as Hin by (by apply list_elem_of_filter).
  rewrite Hlen in Hin. by apply elem_of_nil in Hin.
Qed.

Lemma seed_admin_has_admin admin_hash now db :
  ∃ u, u ∈ admin_users (seed_admin admin_hash now db) ∧ AdminUser.username u = "admin".
Proof.
  unfold seed_admin. case_decide as Hlen.
  - eexists. split; [cbn; apply elem_of_app; right; left|done].
  - destruct (filter _ (admin_users db)) as [|u rest] eqn:Hf; [done|].
    assert (u ∈ filter (λ u, AdminUser.username u = "admin") (admin_users db))
      as Hin by (rewrite Hf; left).
    apply list_elem_of_filter in Hin as [? ?]. by exists u.
Qed.

End InitFacts.

(** X16: the seeded operator.  On a database initialised from an empty
    file the only account is "admin", created with id 1 and the hash of
    the default password: it authenticates with exactly the passwords that
    verify against that hash, and every other user name is refused. *)
Theorem seeded_operator_is_the_only_account check_password_hash admin_hash
    default_content now :
  let db := init_database admin_hash default_content now empty_database in
  admin_users db
  = [{| AdminUser.id := 1; AdminUser.username := "admin";
        AdminUser.password_hash := admin_hash;
        AdminUser.created_at := current_timestamp now |}] ∧
  (∀ password,
     authenticate_admin check_password_hash "admin" password db
     = if check_password_hash admin_hash password
       then (true, "Authentication successful",
             Some {| AdminUser.id := 1; AdminUser.username := "admin";
                     AdminUser.password_hash := admin_hash;
                     AdminUser.created_at := current_timestamp now |})
       else (false, "Invalid credentials", None)) ∧
  (∀ username password, username ≠ "admin" →
     authenticate_admin check_password_hash username password db
     = (false, "Invalid credentials", None)).
Proof.
  intros db. subst db.
  assert (admin_users (init_database admin_hash default_content now empty_database)
          = [{| AdminUser.id := 1; AdminUser.username := "admin";
                AdminUser.password_hash := admin_hash;
                AdminUser.created_at := current_timestamp now |}]) as Husers.
  { unfold init_database. by rewrite seed_content_admin_users. }
  split; [exact Husers|]. unfold authenticate_admin. rewrite Husers. split.
  - intros password. rewrite filter_cons_True by done. cbn.
    by destruct (check_password_hash admin_hash password).
  - intros username password Hne. by rewrite filter_cons_False by (cbn; congruence).
Qed.

(** X17: a restart loses nothing.  [init_database] on an existing database
    keeps every submission, keeps the accounts as they are once an "admin"
    row exists (so a changed password is not reset), keeps every stored
    section with its text, and makes sure every default section exists;
    run again, with any hash and at any time, it changes nothing. *)
Theorem restart_loses_nothing admin_hash default_content now db :
  let db' := init_database admin_hash default_content now db in
  clients db' = clients db ∧
  (∀ u, u ∈ admin_users db → AdminUser.username u = "admin" →
        admin_users db' = admin_users db) ∧
  (∀ sec row, website_content db !! sec = Some row →
              website_content db' !! sec = Some row) ∧
  (∀ sec, sec ∈ default_content.*1 → is_Some (website_content db' !! sec)) ∧
  (∀ admin_hash' now', init_database admin_hash' default_content now' db' = db').
Proof.
  intros db'. subst db'. split; [apply init_database_clients|].
  unfold init_database. split; [|split; [|split]].
  - intros u Hu Hname. rewrite seed_content_admin_users.
    by rewrite (seed_admin_nothing_to_do _ _ _ u).
  - intros sec row Hrow. apply seed_content_keeps.
    unfold seed_admin. by case_decide.
  - intros sec Hsec. by apply seed_content_has.
  - intros admin_hash' now'.
    destruct (seed_admin_has_admin admin_hash now db) as (u & Hu & Hname).
    rewrite (seed_admin_nothing_to_do admin_hash' now' _ u)
      by (by rewrite ?seed_content_admin_users).
    apply seed_content_nothing_to_do. intros sec Hsec. by apply seed_content_has.
Qed.

(** ** Saving site content *)


(** ** Reply templates *)

Section TemplateFacts.
Implicit Types (ts : Templates) (t : gmap Z TemplateRow) (row : TemplateRow).

Lemma name_taken_spec name except t :
  name_taken name except t = true ↔
  ∃ k r, t !! k = Some r ∧ template_name r = name ∧ except ≠ Some k.
Proof. unfold name_taken. rewrite bool_decide_eq_true. done. Qed.

Lemma name_not_taken name except t k r :
  name_taken name except t = false → t !! k = Some r → except ≠ Some k →
  template_name r ≠ name.
Proof.
  intros Hfree Hr Hk Hname.
  assert (name_taken name except t = true) as Htaken
    by (apply name_taken_spec; eauto).
  congruence.
Qed.

Lemma insert_template_keeps name subject body is_default now ts k row :
  email_templates ts !! k = Some row →
  email_templates (insert_template name subject body is_default now ts) !! k
  = Some row.
Proof.
  intros Hrow. cbn. rewrite lookup_insert_ne; [done|].
  intros Heq. rewrite <-Heq, next_rowid_fresh in Hrow. done.
Qed.

Lemma seed_template_keeps now ts entry k row :
  email_templates ts !! k = Some row →
  email_templates (seed_template now ts entry) !! k = Some row.
Proof.
  intros Hrow. destruct entry as [[[name subject] body] is_default]. cbn.
  destruct (name_taken _ _ _); [done|]. by apply insert_template_keeps.
Qed.

Lemma init_templates_keeps default_templates now ts k row :
  email_templates ts !! k = Some row →
  email_templates (init_templates default_templates now ts) !! k = Some row.
Proof.
  unfold init_templates. revert ts.
  induction default_templates as [|e l IH]; intros ts Hrow; [done|].
  cbn [foldl]. by apply IH, seed_template_keeps.
Qed.

(** A default template survives every call, with its flag and creation
    time. *)
Lemma run_template_keeps_default op ts k row :
  email_templates ts !! k = Some row → template_is_default row ≠ 0 →
  ∃ row', email_templates (run_template op ts) !! k = Some row' ∧
          template_is_default row' = template_is_default row ∧
          template_created_at row' = template_created_at row.
Proof.
  intros Hrow Hdefault.
  assert (∀ ts', email_templates ts' !! k = Some row →
            ∃ row', email_templates ts' !! k = Some row' ∧
                    template_is_default row' = template_is_default row ∧
                    template_created_at row' = template_created_at row) as Hsame
    by (intros ts' Hk; by exists row).
  destruct op as [template_data now|template_id|default_templates now]; cbn [run_template].
  - unfold save_email_template.
    destruct (data_fields template_data !! "name") as [name|]; [|by apply Hsame].
    destruct (data_fields template_data !! "subject") as [subject|]; [|by apply Hsame].
    destruct (data_fields template_data !! "body") as [body|]; [|by apply Hsame].
    destruct (data_id template_data) as [template_id|].
    + case_decide.
      * destruct (name_taken _ _ _); [by apply Hsame|].
        by apply Hsame, insert_template_keeps.
      * destruct (email_templates ts !! template_id) as [r|] eqn:Hr; [|by apply Hsame].
        destruct (name_taken _ _ _); [by apply Hsame|]. cbn.
        rewrite lookup_insert. case_decide as Hk; [|by apply Hsame].
        subst k. assert (r = row) as -> by congruence. by eexists.
    + destruct (name_taken _ _ _); [by apply Hsame|].
      by apply Hsame, insert_template_keeps.
  - unfold delete_email_template.
    destruct (email_templates ts !! template_id) as [r|] eqn:Hr; [|by apply Hsame].
    case_decide as Hzero; [|by apply Hsame].
    apply Hsame. cbn. rewrite lookup_delete_ne; [done|]. intros ->. congruence.
  - by apply Hsame, init_templates_keeps.
Qed.

(** A call of the operator neither makes nor unmakes a default template. *)
Lemma run_template_no_new_default op ts k row' :
  (∀ default_templates now, op ≠ InitTemplates default_templates now) →
  email_templates (run_template op ts) !! k = Some row' →
  template_is_default row' ≠ 0 →
  ∃ row, email_templates ts !! k = Some row ∧
         template_is_default row = template_is_default row'.
Proof.
  intros Hop Hrow' Hdefault.
  assert (∀ name subject body now,
            email_templates (insert_template name subject body 0 now ts) !! k
            = Some row' →
            ∃ row, email_templates ts !! k = Some row ∧
                   template_is_default row = template_is_default row') as Hinsert.
  { intros name subject body now. cbn. rewrite lookup_insert.
    case_decide; [|by eauto]. intros [= <-]. done. }
  destruct op as [template_data now|template_id|default_templates now];
    cbn [run_template] in Hrow'; [| |by destruct (Hop default_templates now)].
  - unfold save_email_template in Hrow'.
    destruct (data_fields template_data !! "name") as [name|]; [|by eauto].
    destruct (data_fields template_data !! "subject") as [subject|]; [|by eauto].
    destruct (data_fields template_data !! "body") as [body|]; [|by eauto].
    destruct (data_id template_data) as [template_id|].
    + case_decide.
      * destruct (name_taken _ _ _); [by eauto|]. by eapply Hinsert.
      * destruct (email_templates ts !! template_id) as [r|] eqn:Hr; [|by eauto].
        destruct (name_taken _ _ _); [by eauto|]. cbn in Hrow'.
        rewrite lookup_insert in Hrow'. case_decide as Hk; [|by eauto].
        subst k. injection Hrow' as <-. by exists r.
    + destruct (name_taken _ _ _); [by eauto|]. by eapply Hinsert.
  - unfold delete_email_template in Hrow'.
    destruct (email_templates ts !! template_id) as [r|] eqn:Hr; [|by eauto].
    case_decide as Hzero; [|by eauto]. cbn in Hrow'.
    apply lookup_delete_Some in Hrow' as [_ Hrow']. by eauto.
Qed.

Lemma names_unique_insert_template name subject body is_default now ts :
  name_taken name None (email_templates ts) = false →
  names_unique (email_templates ts) →
  names_unique (email_templates (insert_template name subject body is_default now ts)).
Proof.
  intros Hfree Huniq k1 k2 r1 r2. cbn. rewrite !lookup_insert.
  repeat case_decide; try congruence.
  - intros [= <-] Hr2 Hname. cbn in Hname.
    destruct (name_not_taken _ _ _ k2 r2 Hfree Hr2); done.
  - intros Hr1 [= <-] Hname. cbn in Hname.
    destruct (name_not_taken _ _ _ k1 r1 Hfree Hr1); done.
  - apply Huniq.
Qed.

Lemma names_unique_seed now ts entry :
  names_unique (email_templates ts) →
  names_unique (email_templates (seed_template now ts entry)).
Proof.
  intros Huniq. destruct entry as [[[name subject] body] is_default]. cbn -[insert_template].
  destruct (name_taken _ _ _) eqn:Hfree; [done|]. by apply names_unique_insert_template.
Qed.

Lemma names_unique_init default_templates now ts :
  names_unique (email_templates ts) →
  names_unique (email_templates (init_templates default_templates now ts)).
Proof.
  unfold init_templates. revert ts.
  induction default_templates as [|e l IH]; intros ts Huniq; [done|].
  cbn [foldl]. by apply IH, names_unique_seed.
Qed.

Lemma names_unique_run op ts :
  names_unique (email_templates ts) →
  names_unique (email_templates (run_template op ts)).
Proof.
  intros Huniq.
  destruct op as [template_data now|template_id|default_templates now]; cbn [run_template].
  - unfold save_email_template.
    destruct (data_fields template_data !! "name") as [name|]; [|done].
    destruct (data_fields template_data !! "subject") as [subject|]; [|done].
    destruct (data_fields template_data !! "body") as [body|]; [|done].
    destruct (data_id template_data) as [template_id|].
    + case_decide.
      * destruct (name_taken _ _ _) eqn:Hfree; [done|].
        by apply names_unique_insert_template.
      * destruct (email_templates ts !! template_id) as [r|] eqn:Hr; [|done].
        destruct (name_taken _ _ _) eqn:Hfree; [done|]. cbn.
        intros k1 k2 r1 r2. rewrite !lookup_insert.
        repeat case_decide; try congruence.
        -- intros [= <-] Hr2 Hname. cbn in Hname.
           destruct (name_not_taken _ _ _ k2 r2 Hfree Hr2); [congruence|done].
        -- intros Hr1 [= <-] Hname. cbn in Hname.
           destruct (name_not_taken _ _ _ k1 r1 Hfree Hr1); [congruence|done].
        -- apply Huniq.
    + destruct (name_taken _ _ _) eqn:Hfree; [done|].
      by apply names_unique_insert_template.
  - unfold delete_email_template.
    destruct (email_templates ts !! template_id) as [r|] eqn:Hr; [|done].
    case_decide; [|done]. cbn. intros k1 k2 r1 r2.
    intros [_ Hr1]%lookup_delete_Some [_ Hr2]%lookup_delete_Some. by apply Huniq.
  - by apply names_unique_init.
Qed.

Lemma reachable_names_unique ts :
  reachable_templates ts → names_unique (email_templates ts).
Proof.
  induction 1 as [default_templates now|op ts _ IH].
  - apply names_unique_init. intros k1 k2 r1 r2. cbn. by rewrite lookup_empty.
  - by apply names_unique_run.
Qed.

Lemma seed_template_has now ts name subject body is_default :
  name_taken name None (email_templates (seed_template now ts (name, subject, body, is_default)))
  = true.
Proof.
  cbn -[insert_template].
  destruct (name_taken name None (email_templates ts)) eqn:Htaken; [done|].
  apply name_taken_spec. eexists _, _. cbn. rewrite lookup_insert_eq. done.
Qed.

Lemma init_templates_taken_mono default_templates now ts name :
  name_taken name None (email_templates ts) = true →
  name_taken name None (email_templates (init_templates default_templates now ts)) = true.
Proof.
  intros (k & r & Hr & Hname & Hk)%name_taken_spec. apply name_taken_spec.
  exists k, r. split; [by apply init_templates_keeps|done].
Qed.

Lemma init_templates_nothing_to_do default_templates now ts :
  (∀ entry, entry ∈ default_templates →
            name_taken entry.1.1.1 None (email_templates ts) = true) →
  init_templates default_templates now ts = ts.
Proof.
  unfold init_templates.
  induction default_templates as [|e l IH]; intros Hall; [done|].
  cbn [foldl]. assert (seed_template now ts e = ts) as ->.
  { specialize (Hall e (list_elem_of_here _ _)).
    destruct e as [[[name subject] body] is_default]. cbn in *. by rewrite Hall. }
  apply IH. intros entry Hentry. apply Hall. by right.
Qed.

End TemplateFacts.

(** X19: default templates are permanent.  Whatever calls are made on the
    template table (saves, deletes, restarts), a stored template whose
    default flag is set stays stored under its id, with the flag and its
    creation time; in particular [delete_email_template] refuses it. *)
Theorem default_templates_are_permanent ops ts template_id row :
  email_templates ts !! template_id = Some row → template_is_default row ≠ 0 →
  (∃ row', email_templates (run_all_templates ops ts) !! template_id = Some row' ∧
           template_is_default row' = template_is_default row ∧
           template_created_at row' = template_created_at row) ∧
  delete_email_template template_id ts
  = ((false, "Template not found or is default"), ts).
Proof.
  intros Hrow Hdefault. split.
  - revert ts row Hrow Hdefault. induction ops as [|op ops IH]; intros ts row Hrow Hdefault.
    + by exists row.
    + cbn [run_all_templates foldl].
      destruct (run_template_keeps_default op ts template_id row Hrow Hdefault)
        as (row1 & Hrow1 & Hflag1 & Hcreated1).
      destruct (IH (run_template op ts) row1 Hrow1) as (row' & Hrow' & Hflag & Hcreated);
        [congruence|].
      exists row'. split; [done|]. split; congruence.
  - unfold delete_email_template. rewrite Hrow. by rewrite decide_False.
Qed.

Lemma default_templates_are_permanent_example :
  let ops := [DeleteTemplate 1;
              SaveTemplate {| data_id := Some 1;
                              data_fields := <["name" := "welcome"]>
                                (<["subject" := "Welcome"]> {["body" := "Hi {name}"]}) |}
                sample_now;
              DeleteTemplate 1] in
  ∃ row,
    email_templates seeded_templates !! 1 = Some row ∧ template_is_default row ≠ 0 ∧
    (∃ row', email_templates (run_all_templates ops seeded_templates) !! 1 = Some row' ∧
             template_is_default row' = template_is_default row ∧
             template_created_at row' = template_created_at row) ∧
    delete_email_template 1 seeded_templates
    = ((false, "Template not found or is default"), seeded_templates).
Proof.
  intros ops.
  destruct (email_templates seeded_templates !! 1) as [row|] eqn:Hrow;
    [|by vm_compute in Hrow].
  assert (template_is_default row ≠ 0) as Hdefault.
  { vm_compute in Hrow. injection Hrow as <-. done. }
  exists row. split; [done|]. split; [exact Hdefault|].
  exact (default_templates_are_permanent ops seeded_templates 1 row Hrow Hdefault).
Defined.

(** X20: the operator cannot make a template a default one.  After a save
    or a delete, a stored template whose default flag is set was stored
    under the same id with the same flag before: saving never sets or
    clears the flag, and a new template is created without it. *)
Theorem operator_cannot_make_defaults op ts template_id row' :
  by_operator op = true →
  email_templates (run_template op ts) !! template_id = Some row' →
  template_is_default row' ≠ 0 →
  ∃ row, email_templates ts !! template_id = Some row ∧
         template_is_default row = template_is_default row'.
Proof.
  intros Hop. apply run_template_no_new_default.
  intros default_templates now ->. done.
Qed.

Lemma operator_cannot_make_defaults_example :
  let op := SaveTemplate {| data_id := Some 1;
                            data_fields := <["name" := "welcome"]>
                              (<["subject" := "Welcome"]> {["body" := "Hi {name}"]}) |}
              sample_now in
  ∃ row',
    by_operator op = true ∧
    email_templates (run_template op seeded_templates) !! 1 = Some row' ∧
    template_is_default row' ≠ 0 ∧
    ∃ row, email_templates seeded_templates !! 1 = Some row ∧
           template_is_default row = template_is_default row'.
Proof.
  intros op.
  destruct (email_templates (run_template op seeded_templates) !! 1) as [row'|] eqn:Hrow';
    [|by vm_compute in Hrow'].
  assert (template_is_default row' ≠ 0) as Hdefault.
  { vm_compute in Hrow'. injection Hrow' as <-. done. }
  exists row'. split; [done|]. split; [done|]. split; [exact Hdefault|].
  exact (operator_cannot_make_defaults op seeded_templates 1 row' eq_refl Hrow' Hdefault).
Defined.

(** X21: template names stay unique, and the listing is by name.  In
    every template table reachable from an empty one, no two templates
    share a name; [get_email_templates] returns every stored template
    exactly once, in increasing order of their (distinct) names. *)
Theorem templates_are_listed_by_unique_name ts :
  reachable_templates ts →
  names_unique (email_templates ts) ∧
  get_email_templates ts
  ≡ₚ (λ kr, template_dict kr.1 kr.2) <$> map_to_list (email_templates ts) ∧
  Sorted (λ a b, String.le (tpl_name a) (tpl_name b)) (get_email_templates ts) ∧
  NoDup (tpl_name <$> get_email_templates ts).
Proof.
  intros Huniq%reachable_names_unique. split; [done|].
  assert (get_email_templates ts
          ≡ₚ (λ kr, template_dict kr.1 kr.2) <$> map_to_list (email_templates ts))
    as Hperm by apply merge_sort_Permutation.
  split; [done|]. split.
  - assert (Total (λ a b, String.le (tpl_name a) (tpl_name b))) as Htotal.
    { intros a b. destruct (total String.le (tpl_name a) (tpl_name b)); auto. }
    by apply (Sorted_merge_sort (λ a b, String.le (tpl_name a) (tpl_name b))).
  - rewrite Hperm, <-list_fmap_compose.
    apply NoDup_fmap_2_strong; [|apply NoDup_map_to_list].
    intros [k1 r1] [k2 r2] Hr1%elem_of_map_to_list Hr2%elem_of_map_to_list Hname.
    cbn in Hname. assert (k1 = k2) as -> by (by eapply Huniq). congruence.
Qed.

Lemma templates_are_listed_by_unique_name_example :
  reachable_templates seeded_templates ∧
  tpl_name <$> get_email_templates seeded_templates
  = ["follow_up"; "initial_reply"; "project_accepted"] ∧
  NoDup (tpl_name <$> get_email_templates seeded_templates).
Proof.
  assert (reachable_templates seeded_templates) as Hts
    by apply reachable_templates_init.
  split; [exact Hts|]. split; [by vm_compute|].
  exact (proj2 (proj2 (proj2 (templates_are_listed_by_unique_name seeded_templates Hts)))).
Defined.

(** X22: seeding templates at a start.  [init_templates] leaves every
    stored template as it is (an edited default keeps its edits), makes
    sure a template of every default name exists (a deleted one comes
    back), and run again changes nothing. *)
Theorem template_seeding_contract default_templates now ts :
  let ts' := init_templates default_templates now ts in
  (∀ k row, email_templates ts !! k = Some row → email_templates ts' !! k = Some row) ∧
  (∀ name subject body is_default,
     (name, subject, body, is_default) ∈ default_templates →
     ∃ k row, email_templates ts' !! k = Some row ∧ template_name row = name) ∧
  (∀ now', init_templates default_templates now' ts' = ts').
Proof.
  intros ts'. subst ts'.
  assert (∀ entry, entry ∈ default_templates →
            name_taken entry.1.1.1 None
              (email_templates (init_templates default_templates now ts)) = true)
    as Hall.
  { unfold init_templates. revert ts.
    induction default_templates as [|e l IH]; intros ts entry Hentry.
    - by apply elem_of_nil in Hentry.
    - cbn [foldl]. apply elem_of_cons in Hentry as [->|Hentry]; [|by apply IH].
      apply (init_templates_taken_mono l now).
      destruct e as [[[name subject] body] is_default]. apply seed_template_has. }
  split; [intros k row; apply init_templates_keeps|]. split.
  - intros name subject body is_default Hentry.
    destruct (proj1 (name_taken_spec _ _ _) (Hall _ Hentry)) as (k & r & Hr & Hname & _).
    by exists k, r.
  - intros now'. by apply init_templates_nothing_to_do.
Qed.
